(** * AudioLDM generation pipeline ([audioldm/pipeline.py])

    A shallow embedding of the batch builder, the model builder, the
    conditioning selector and the three generation entry points, followed
    by the properties of the design document that can be settled on them
    and by further properties that the code itself shows.

    Layout: Python values the pipeline computes with (numbers, exceptions,
    tensor shapes), the model object, the programs, their interpretation
    over arbitrary collaborators, and the theorems. *)

From Stdlib Require Import ZArith List String Bool Lia SpecFloat.
Import ListNotations.
Local Open Scope string_scope.
Local Open Scope list_scope.
Local Open Scope Z_scope.

Set Implicit Arguments.

(** ** Exceptions and fallible values *)

(** The exception classes that [pipeline.py] itself can raise, each with
    the operation it comes from, and [External] for exceptions raised
    inside a collaborator. *)
Inductive exn : Type :=
| AssertionError (stmt : string)
| RuntimeError (op : string)
| TypeError (op : string)
| ValueError (op : string)
| OverflowError (op : string)
| IndexError (op : string)
| External (name : string).

Inductive result (A : Type) : Type :=
| Ok (a : A)
| Err (e : exn).
Arguments Ok {A} a.
Arguments Err {A} e.

Definition rbind {A B} (r : result A) (k : A -> result B) : result B :=
  match r with
  | Ok a => k a
  | Err e => Err e
  end.

(** ** Python numbers

    [duration], [transfer_strength], [guidance_scale] and [seed] are Python
    numbers: an unbounded [int] or a binary64 [float].  Floats follow the
    IEEE 754 specification of the standard library ([SpecFloat], precision
    53, exponent bound 1024). *)

Module Py.

Definition prec : Z := 53.
Definition emax : Z := 1024.

Inductive num : Type :=
| Int (z : Z)
| Float (f : spec_float).

(** [float(z)]: round to nearest even; too large an int raises. *)
Definition float_of_int (z : Z) : result spec_float :=
  match binary_normalize prec emax z 0 false with
  | S754_infinity _ => Err (OverflowError "int too large to convert to float")
  | f => Ok f
  end.

Definition to_float (x : num) : result spec_float :=
  match x with
  | Int z => float_of_int z
  | Float f => Ok f
  end.

(** [x * y]: exact on two ints, otherwise the binary64 product after the
    int operand is converted. *)
Definition mul (x y : num) : result num :=
  match x, y with
  | Int a, Int b => Ok (Int (a * b))
  | _, _ =>
      rbind (to_float x) (fun fx =>
      rbind (to_float y) (fun fy =>
      Ok (Float (SFmul prec emax fx fy))))
  end.

(** The integer part of [m * 2^e], rounded toward zero and toward minus
    infinity. *)
Definition scaled_quot (m e : Z) : Z :=
  if 0 <=? e then m * 2 ^ e else Z.quot m (2 ^ (- e)).

Definition scaled_div (m e : Z) : Z :=
  if 0 <=? e then m * 2 ^ e else Z.div m (2 ^ (- e)).

Definition signed (s : bool) (m : positive) : Z :=
  if s then Z.neg m else Z.pos m.

(** [int(x)]: truncation toward zero; raises on infinities and NaN. *)
Definition int (x : num) : result Z :=
  match x with
  | Int z => Ok z
  | Float (S754_zero _) => Ok 0
  | Float (S754_finite s m e) => Ok (scaled_quot (signed s m) e)
  | Float (S754_infinity _) =>
      Err (OverflowError "cannot convert float infinity to integer")
  | Float S754_nan => Err (ValueError "cannot convert float NaN to integer")
  end.

(** [math.floor(x)]: rounding toward minus infinity, same exceptions. *)
Definition floor (x : num) : result Z :=
  match x with
  | Int z => Ok z
  | Float (S754_zero _) => Ok 0
  | Float (S754_finite s m e) => Ok (scaled_div (signed s m) e)
  | Float (S754_infinity _) =>
      Err (OverflowError "cannot convert float infinity to integer")
  | Float S754_nan => Err (ValueError "cannot convert float NaN to integer")
  end.

(** The literals of the source: the doubles nearest to the decimals. *)
Definition f25_6 : spec_float := S754_finite false 7205759403792794 (-48).
Definition f102_4 : spec_float := S754_finite false 7205759403792794 (-46).
Definition f1_0 : spec_float := S754_finite false 4503599627370496 (-52).
Definition f0_0 : spec_float := S754_zero false.
Definition f10_0 : spec_float := S754_finite false 5629499534213120 (-49).
Definition f0_5 : spec_float := S754_finite false 4503599627370496 (-53).
(** [10.00390625], that is [2561 / 256]. *)
Definition f10_004 : spec_float := S754_finite false 5631698557468672 (-49).

(** [x == 1.0] and [x != 1.0].  Python compares an int with a float by
    value, so an int equals [1.0] exactly when it is [1]; NaN differs from
    everything. *)
Definition eq_one (x : num) : bool :=
  match x with
  | Int z => z =? 1
  | Float f => SFeqb f f1_0
  end.

Definition ne_one (x : num) : bool := negb (eq_one x).

(** No sign bit set; NaN, which has none, counts. *)
Definition unsigned_float (f : spec_float) : bool :=
  match f with
  | S754_zero _ | S754_nan => true
  | S754_infinity s | S754_finite s _ _ => negb s
  end.

(** [0 <= x]. *)
Definition nonneg (x : num) : bool :=
  match x with
  | Int z => 0 <=? z
  | Float f => SFleb (S754_zero false) f
  end.

End Py.

(** ** Tensors

    [pipeline.py] never looks at the elements of a tensor, only at its
    sizes, so a tensor is its shape.  Device placement is not part of a
    shape: [t.to(device)] is the identity here.  The [torch] operations
    follow the library's documented behaviour on shapes. *)

Module Torch.

Definition tensor : Type := list Z.

(** [torch.zeros(shape)]: a negative size is refused. *)
Definition zeros (shape : list Z) : result tensor :=
  if forallb (fun d => 0 <=? d) shape then Ok shape
  else Err (RuntimeError "torch.zeros: negative dimension").

(** [torch.FloatTensor(a)] keeps the shape of the array it copies. *)
Definition FloatTensor (a : list Z) : tensor := a.

(** One dimension of [Tensor.expand]: [-1] keeps the size, an equal size
    is kept, a size of one is broadcast to a non-negative target. *)
Definition expand_dim (d s : Z) : result Z :=
  if s =? -1 then Ok d
  else if s =? d then Ok d
  else if (d =? 1) && (0 <=? s) then Ok s
  else Err (RuntimeError "expand: size mismatch at a non-singleton dimension").

(** [expand] aligns the sizes with the tensor from the last dimension
    backwards; both arguments arrive reversed.  Leading sizes without a
    dimension in the tensor create one and cannot be [-1]. *)
Fixpoint expand_rev (t sizes : list Z) : result (list Z) :=
  match sizes with
  | [] =>
      match t with
      | [] => Ok []
      | _ :: _ => Err (RuntimeError "expand: fewer sizes than dimensions")
      end
  | s :: sizes' =>
      match t with
      | [] =>
          if s <? 0 then Err (RuntimeError "expand: negative leading size")
          else rbind (expand_rev [] sizes') (fun r => Ok (s :: r))
      | d :: t' =>
          rbind (expand_dim d s) (fun x =>
          rbind (expand_rev t' sizes') (fun r => Ok (x :: r)))
      end
  end.

Definition expand (t : tensor) (sizes : list Z) : result tensor :=
  rbind (expand_rev (rev t) (rev sizes)) (fun r => Ok (rev r)).

(** [t.size(0)]. *)
Definition size0 (t : tensor) : result Z :=
  match t with
  | d :: _ => Ok d
  | [] => Err (IndexError "size: dimension out of range")
  end.

(** [t.unsqueeze(0)] and [t[None, ...]]. *)
Definition unsqueeze0 (t : tensor) : tensor := 1 :: t.

(** [torch.tensor(l)] on a list of ints: each must fit 64 bits. *)
Definition int64 (z : Z) : bool := (- 2 ^ 63 <=? z) && (z <? 2 ^ 63).

Definition tensor_of_ints (l : list Z) : result (list Z) :=
  if forallb int64 l then Ok l
  else Err (RuntimeError "torch.tensor: Overflow when unpacking long").

End Torch.

(** [[x] * n]: a negative count gives the empty list.  The count is taken
    to fit the index type of the machine: from [2^63] on, CPython raises an
    overflow error instead. *)
Definition list_times {A} (x : A) (n : Z) : list A := repeat x (Z.to_nat n).

(** ** The batch builder *)

(** The six-tuple [(fbank, stft, None, fname, waveform, text)]; the third
    component is the constant [None]. *)
Record Batch : Type := mkBatch {
  fbank : Torch.tensor;
  stft : Torch.tensor;
  slot3 : unit;
  fname : list string;
  waveform : Torch.tensor;
  text : list string
}.

(** Computations that print lines and then return or raise. *)
Definition io (A : Type) : Type := (list string * result A)%type.

Definition io_ret {A} (a : A) : io A := ([], Ok a).

Definition io_bind {A B} (c : io A) (k : A -> io B) : io B :=
  match c with
  | (out, Ok a) => let '(out', r) := k a in (out ++ out', r)
  | (out, Err e) => (out, Err e)
  end.

Definition io_print (s : string) : io unit := ([s], Ok tt).

Definition io_lift {A} (r : result A) : io A := ([], r).

Definition io_assert (b : bool) (stmt : string) : io unit :=
  if b then io_ret tt else io_lift (Err (AssertionError stmt)).

Declare Scope io_scope.
Delimit Scope io_scope with io.
Notation "x <- c ;; k" := (io_bind c (fun x => k))
  (at level 61, c at next level, right associativity) : io_scope.
Notation "c ;; k" := (io_bind c (fun _ => k))
  (at level 61, right associativity) : io_scope.

Definition batchsize_warning : string :=
  "Warning: Batchsize must be at least 1. Batchsize is set to .".

Definition make_batch_for_text_to_audio
    (text : string) (waveform fbank : option (list Z)) (batchsize : Z)
  : io Batch :=
  (let text := list_times text batchsize in
   (if batchsize <? 1 then io_print batchsize_warning else io_ret tt) ;;
   fbank <- match fbank with
            | None => io_lift (Torch.zeros [batchsize; 1024; 64])
            | Some fbank =>
                let fbank := Torch.FloatTensor fbank in
                fbank <- io_lift (Torch.expand fbank [batchsize; 1024; 64]) ;;
                n <- io_lift (Torch.size0 fbank) ;;
                io_assert (n =? batchsize) "fbank.size(0) == batchsize" ;;
                io_ret fbank
            end ;;
   stft <- io_lift (Torch.zeros [batchsize; 1024; 512]) ;;
   waveform <- match waveform with
               | None => io_lift (Torch.zeros [batchsize; 160000])
               | Some waveform =>
                   let waveform := Torch.FloatTensor waveform in
                   waveform <- io_lift (Torch.expand waveform [batchsize; -1]) ;;
                   n <- io_lift (Torch.size0 waveform) ;;
                   io_assert (n =? batchsize) "waveform.size(0) == batchsize" ;;
                   io_ret waveform
               end ;;
   let fname := list_times "" batchsize in
   io_ret (mkBatch fbank stft tt fname waveform text))%io.

(** The value of a broadcast with its size check. *)
Definition checked_expand (a sizes : list Z) (batchsize : Z) (stmt : string)
  : result Torch.tensor :=
  rbind (Torch.expand (Torch.FloatTensor a) sizes) (fun t =>
  rbind (Torch.size0 t) (fun n =>
  if n =? batchsize then Ok t else Err (AssertionError stmt))).

(** Lines 24 to 50 of the builder on their own: the fields in the order
    fbank, stft, waveform, with the batchsize as it is given. *)
Definition batch_value
    (text : string) (waveform fbank : option (list Z)) (batchsize : Z)
  : result Batch :=
  rbind (match fbank with
         | Some a => checked_expand a [batchsize; 1024; 64] batchsize
                                    "fbank.size(0) == batchsize"
         | None => Torch.zeros [batchsize; 1024; 64]
         end) (fun f =>
  rbind (Torch.zeros [batchsize; 1024; 512]) (fun s =>
  rbind (match waveform with
         | Some a => checked_expand a [batchsize; -1] batchsize
                                    "waveform.size(0) == batchsize"
         | None => Torch.zeros [batchsize; 160000]
         end) (fun w =>
  Ok (mkBatch f s tt (list_times "" batchsize) w
              (list_times text batchsize))))).

(** A provided input is broadcast, and the broadcast tensor has a leading
    dimension other than [batchsize]. *)
Definition broadcast_mismatch
    (x : option (list Z)) (sizes : list Z) (batchsize : Z) : Prop :=
  exists a t n,
    x = Some a /\ Torch.expand (Torch.FloatTensor a) sizes = Ok t /\
    Torch.size0 t = Ok n /\ n <> batchsize.

Definition raises_assertion {A} (r : result A) : Prop :=
  exists stmt, r = Err (AssertionError stmt).

(** [duration_to_latent_t_size(duration)]: [int(duration * 25.6)]. *)
Definition duration_to_latent_t_size (duration : Py.num) : result Z :=
  rbind (Py.mul duration (Py.Float Py.f25_6)) Py.int.

(** The design document's wording of the same two quantities,
    [floor(d * 25.6)] and [floor(transfer_strength * ddim_steps)], for
    comparison with the code. *)
Definition floor_of_scaled_duration (duration : Py.num) : result Z :=
  rbind (Py.mul duration (Py.Float Py.f25_6)) Py.floor.

Definition floor_of_strength_steps
    (transfer_strength : Py.num) (ddim_steps : Z) : result Z :=
  rbind (Py.mul transfer_strength (Py.Int ddim_steps)) Py.floor.

(** An argument that may be [None]: [None * 102.4] is a type error. *)
Definition mul_float (x : option Py.num) (c : spec_float) : result Py.num :=
  match x with
  | Some x => Py.mul x (Py.Float c)
  | None => Err (TypeError "unsupported operand type(s) for *: 'NoneType' and 'float'")
  end.

(** [str(x)] of an optional string, as ["%s" % x] prints it. *)
Definition str_of (x : option string) : string :=
  match x with
  | Some s => s
  | None => "None"
  end.

(** The [config] argument of the entry points: [None], a path, or any
    other value, which [assert type(config) is str] rejects. *)
Inductive config_arg : Type :=
| ConfigStr (path : string)
| ConfigOther.

(** ** The model object and the collaborators

    [Obj] stands for the values [pipeline.py] only passes around (latents,
    conditionings, the sampler, the configuration dictionary); [Rest] and
    [CsmRest] for the attributes of the model and of its
    [cond_stage_model] that [pipeline.py] never names; [Env] for the state
    the collaborators keep outside the model (random generators, files). *)

Section Pipeline.

Variables Obj Rest CsmRest Env : Type.

Record CondStageModel : Type := mkCsm {
  embed_mode : string;
  csm_rest : CsmRest
}.

Record LatentDiffusion : Type := mkLd {
  cond_stage_key : string;
  cond_stage_model : CondStageModel;
  latent_t_size : Z;
  ld_rest : Rest
}.

(** Attribute assignments. *)
Definition set_cond_stage_key (v : string) (ld : LatentDiffusion) : LatentDiffusion :=
  mkLd v (cond_stage_model ld) (latent_t_size ld) (ld_rest ld).

Definition set_embed_mode (v : string) (ld : LatentDiffusion) : LatentDiffusion :=
  mkLd (cond_stage_key ld)
       (mkCsm v (csm_rest (cond_stage_model ld)))
       (latent_t_size ld) (ld_rest ld).

Definition set_latent_t_size (v : Z) (ld : LatentDiffusion) : LatentDiffusion :=
  mkLd (cond_stage_key ld) (cond_stage_model ld) v (ld_rest ld).

Definition set_cond_audio (latent_diffusion : LatentDiffusion) : LatentDiffusion :=
  let latent_diffusion := set_cond_stage_key "waveform" latent_diffusion in
  let latent_diffusion := set_embed_mode "audio" latent_diffusion in
  latent_diffusion.

Definition set_cond_text (latent_diffusion : LatentDiffusion) : LatentDiffusion :=
  let latent_diffusion := set_cond_stage_key "text" latent_diffusion in
  let latent_diffusion := set_embed_mode "text" latent_diffusion in
  latent_diffusion.

(** Calls that do not receive the model: functions of [torch], [yaml],
    [einops] and of the [audioldm] package. *)
Inductive ext : Type :=
| cuda_is_available
| seed_everything (seed : Z)
| read_wav_file (filename : string) (segment_length : Z)
| open_file (path : string)
| yaml_load (file : Obj)
| default_audioldm_config
| config_lookup (config : Obj) (section subsection key : string)
| TacotronSTFT (filter_length hop_length win_length n_mel_channels
                sampling_rate mel_fmin mel_fmax : Obj)
| wav_to_fbank (filename : option string) (target_length : Z) (fn_STFT : Obj)
| einops_repeat (t : Torch.tensor) (pattern : string) (b : Z)
| no_grad_enter
| no_grad_exit
| autocast_enter (device_type : string)
| autocast_exit.

Definition ext_ret (c : ext) : Type :=
  match c with
  | cuda_is_available => bool
  | seed_everything _ => unit
  | read_wav_file _ _ => list Z
  | open_file _ => Obj
  | yaml_load _ => Obj
  | default_audioldm_config => Obj
  | config_lookup _ _ _ _ => Obj
  | TacotronSTFT _ _ _ _ _ _ _ => Obj
  | wav_to_fbank _ _ _ => (Torch.tensor * Obj * Obj)%type
  | einops_repeat _ _ _ => Torch.tensor
  | no_grad_enter | no_grad_exit => unit
  | autocast_enter _ | autocast_exit => unit
  end.

(** Calls on the model, or on the sampler that holds the model. *)
Inductive meth : Type :=
| generate_sample (batchs : list Batch) (unconditional_guidance_scale : Py.num)
    (ddim_steps n_candidate_gen_per_text : Z) (duration : Py.num)
| generate_sample_masked (batchs : list Batch)
    (unconditional_guidance_scale : Py.num)
    (ddim_steps n_candidate_gen_per_text : Z) (duration : option Py.num)
    (time_mask_ratio_start_and_end freq_mask_ratio_start_and_end : Py.num * Py.num)
| encode_first_stage (x : Torch.tensor)
| get_first_stage_encoding (encoder_posterior : Obj)
| DDIMSampler
| make_schedule (sampler : Obj) (ddim_num_steps : Z) (ddim_eta : spec_float)
    (verbose : bool)
| ema_scope_enter
| ema_scope_exit
| get_unconditional_condition (batchsize : Z)
| get_learned_conditioning (c : list string)
| stochastic_encode (sampler : Obj) (x0 : Obj) (t : list Z)
| decode (sampler : Obj) (x_latent cond : Obj) (t_start : Z)
    (unconditional_guidance_scale : Py.num)
    (unconditional_conditioning : option Obj)
| decode_first_stage (z : Obj)
| decode_to_waveform (dec : Obj).

Definition meth_ret (c : meth) : Type :=
  match c with
  | make_schedule _ _ _ _ | ema_scope_enter | ema_scope_exit => unit
  | _ => Obj
  end.

(** ** Programs

    A program returns, raises, prints, assigns attributes of the model, or
    calls a collaborator and goes on with what the call returned or
    raised. *)
Inductive prog (A : Type) : Type :=
| Ret (a : A)
| Raise (e : exn)
| Emit (s : string) (k : prog A)
| Assign (f : LatentDiffusion -> LatentDiffusion) (k : prog A)
| CallExt (c : ext) (k : result (ext_ret c) -> prog A)
| CallMeth (c : meth) (k : result (meth_ret c) -> prog A).
Arguments Ret {A} a.
Arguments Raise {A} e.

Fixpoint bind {A B} (p : prog A) (f : A -> prog B) : prog B :=
  match p with
  | Ret a => f a
  | Raise e => Raise e
  | Emit s k => Emit s (bind k f)
  | Assign g k => Assign g (bind k f)
  | CallExt c k => CallExt c (fun r => bind (k r) f)
  | CallMeth c k => CallMeth c (fun r => bind (k r) f)
  end.

(** [try: p finally: fin]. *)
Fixpoint finally {A} (p : prog A) (fin : prog unit) : prog A :=
  match p with
  | Ret a => bind fin (fun _ => Ret a)
  | Raise e => bind fin (fun _ => Raise e)
  | Emit s k => Emit s (finally k fin)
  | Assign g k => Assign g (finally k fin)
  | CallExt c k => CallExt c (fun r => finally (k r) fin)
  | CallMeth c k => CallMeth c (fun r => finally (k r) fin)
  end.

Definition of_result {A} (r : result A) : prog A :=
  match r with
  | Ok a => Ret a
  | Err e => Raise e
  end.

Definition call_ext (c : ext) : prog (ext_ret c) := CallExt c of_result.
Definition call_meth (c : meth) : prog (meth_ret c) := CallMeth c of_result.
Definition print (s : string) : prog unit := Emit s (Ret tt).
Definition assign (f : LatentDiffusion -> LatentDiffusion) : prog unit :=
  Assign f (Ret tt).

(** [with enter/exit: body]: the exit call runs however the body ends. *)
Definition with_ {A} (enter exit : prog unit) (body : prog A) : prog A :=
  bind enter (fun _ => finally body exit).

(** A printing computation run inside a program. *)
Definition of_io {A} (c : io A) : prog A :=
  fold_right (fun s k => Emit s k) (of_result (snd c)) (fst c).

Declare Scope prog_scope.
Delimit Scope prog_scope with prog.
Notation "x <- c ;; k" := (bind c (fun x => k))
  (at level 61, c at next level, right associativity) : prog_scope.
Notation "c ;; k" := (bind c (fun _ => k))
  (at level 61, right associativity) : prog_scope.
Local Open Scope prog_scope.

(** ** The generation entry points *)

Definition no_grad {A} (body : prog A) : prog A :=
  with_ (call_ext no_grad_enter) (call_ext no_grad_exit) body.

Definition autocast {A} (device_type : string) (body : prog A) : prog A :=
  with_ (call_ext (autocast_enter device_type)) (call_ext autocast_exit) body.

Definition ema_scope {A} (body : prog A) : prog A :=
  with_ (call_meth ema_scope_enter) (call_meth ema_scope_exit) body.

Definition text_to_audio
    (text : string) (original_audio_file_path : option string)
    (seed : Py.num) (ddim_steps : Z) (duration : Py.num) (batchsize : Z)
    (guidance_scale : Py.num) (n_candidate_gen_per_text : Z)
    (config : option config_arg) : prog Obj :=
  seed <- of_result (Py.int seed) ;;
  call_ext (seed_everything seed) ;;
  waveform <- match original_audio_file_path with
              | Some path =>
                  x <- of_result (Py.mul duration (Py.Float Py.f102_4)) ;;
                  n <- of_result (Py.int x) ;;
                  w <- call_ext (read_wav_file path (n * 160)) ;;
                  Ret (Some (w : list Z))
              | None => Ret None
              end ;;
  batch <- of_io (make_batch_for_text_to_audio text waveform None batchsize) ;;
  t <- of_result (duration_to_latent_t_size duration) ;;
  assign (set_latent_t_size t) ;;
  match waveform with
  | Some _ =>
      print ("Generate audio that has similar content as "
             ++ str_of original_audio_file_path) ;;
      assign set_cond_audio
  | None =>
      print ("Generate audio using text " ++ text) ;;
      assign set_cond_text
  end ;;
  no_grad
    (call_meth (generate_sample [batch] guidance_scale ddim_steps
                                n_candidate_gen_per_text duration)).

(** [assert type(config) is str; yaml.load(open(config, "r"))], or the
    built-in configuration. *)
Definition load_config (config : option config_arg) : prog Obj :=
  match config with
  | Some (ConfigStr path) =>
      f <- call_ext (open_file path) ;;
      call_ext (yaml_load f)
  | Some ConfigOther => Raise (AssertionError "type(config) is str")
  | None => call_ext default_audioldm_config
  end.

(** [TacotronSTFT(config["preprocessing"]["stft"]["filter_length"], ...)]:
    the seven arguments are looked up from left to right. *)
Definition make_stft (config : Obj) : prog Obj :=
  a1 <- call_ext (config_lookup config "preprocessing" "stft" "filter_length") ;;
  a2 <- call_ext (config_lookup config "preprocessing" "stft" "hop_length") ;;
  a3 <- call_ext (config_lookup config "preprocessing" "stft" "win_length") ;;
  a4 <- call_ext (config_lookup config "preprocessing" "mel" "n_mel_channels") ;;
  a5 <- call_ext (config_lookup config "preprocessing" "audio" "sampling_rate") ;;
  a6 <- call_ext (config_lookup config "preprocessing" "mel" "mel_fmin") ;;
  a7 <- call_ext (config_lookup config "preprocessing" "mel" "mel_fmax") ;;
  call_ext (TacotronSTFT a1 a2 a3 a4 a5 a6 a7).

(** [t_enc = int(transfer_strength * ddim_steps)]. *)
Definition t_enc_of (transfer_strength : Py.num) (ddim_steps : Z) : result Z :=
  rbind (Py.mul transfer_strength (Py.Int ddim_steps)) Py.int.

Definition style_transfer
    (text : string) (original_audio_file_path : option string)
    (transfer_strength : Py.num) (seed : Py.num) (duration : Py.num)
    (batchsize : Z) (guidance_scale : Py.num) (ddim_steps : Z)
    (config : option config_arg) : prog Obj :=
  cuda <- call_ext cuda_is_available ;;
  let device := if cuda : bool then "cuda:0" else "cpu" in  (* for [.to(device)] *)
  assign set_cond_text ;;
  config <- load_config config ;;
  seed <- of_result (Py.int seed) ;;
  call_ext (seed_everything seed) ;;
  t <- of_result (duration_to_latent_t_size duration) ;;
  assign (set_latent_t_size t) ;;
  assign (set_embed_mode "text") ;;
  fn_STFT <- make_stft config ;;
  x <- of_result (Py.mul duration (Py.Float Py.f102_4)) ;;
  target_length <- of_result (Py.int x) ;;
  r <- call_ext (wav_to_fbank original_audio_file_path target_length fn_STFT) ;;
  let '(mel, _, _) := r in
  let mel := Torch.unsqueeze0 (Torch.unsqueeze0 mel) in
  mel <- call_ext (einops_repeat mel "1 ... -> b ..." batchsize) ;;
  posterior <- call_meth (encode_first_stage mel) ;;
  init_latent <- call_meth (get_first_stage_encoding posterior) ;;
  sampler <- call_meth DDIMSampler ;;
  call_meth (make_schedule sampler ddim_steps Py.f1_0 false) ;;
  t_enc <- of_result (t_enc_of transfer_strength ddim_steps) ;;
  let prompts := text in
  no_grad (autocast "cuda" (ema_scope (
    uc <- (if Py.ne_one guidance_scale
           then u <- call_meth (get_unconditional_condition batchsize) ;;
                Ret (Some (u : Obj))
           else Ret None) ;;
    c <- call_meth (get_learned_conditioning (list_times prompts batchsize)) ;;
    ts <- of_result (Torch.tensor_of_ints (list_times t_enc batchsize)) ;;
    z_enc <- call_meth (stochastic_encode sampler init_latent ts) ;;
    samples <- call_meth (decode sampler z_enc c t_enc guidance_scale uc) ;;
    x_samples <- call_meth (decode_first_stage samples) ;;
    call_meth (decode_to_waveform x_samples)))).

Definition super_resolution_and_inpainting
    (text : string) (original_audio_file_path : option string)
    (seed : Py.num) (ddim_steps : Z) (duration : option Py.num)
    (batchsize : Z) (guidance_scale : Py.num) (n_candidate_gen_per_text : Z)
    (time_mask_ratio_start_and_end freq_mask_ratio_start_and_end
       : Py.num * Py.num)
    (config : option config_arg) : prog Obj :=
  seed <- of_result (Py.int seed) ;;
  call_ext (seed_everything seed) ;;
  config <- load_config config ;;
  fn_STFT <- make_stft config ;;
  x <- of_result (mul_float duration Py.f102_4) ;;
  target_length <- of_result (Py.int x) ;;
  r <- call_ext (wav_to_fbank original_audio_file_path target_length fn_STFT) ;;
  let '(mel, _, _) := r in
  batch <- of_io (make_batch_for_text_to_audio
                    text None (Some (Torch.unsqueeze0 mel)) batchsize) ;;
  assign set_cond_text ;;
  no_grad
    (call_meth (generate_sample_masked
                  [batch] guidance_scale ddim_steps n_candidate_gen_per_text
                  duration time_mask_ratio_start_and_end
                  freq_mask_ratio_start_and_end)).

(** ** Running a program against collaborators *)

Record World : Type := mkWorld {
  model : LatentDiffusion;
  env : Env
}.

(** What an observer of the collaborators sees: prints and calls, a call
    on the model together with the model as it is at that moment. *)
Inductive event : Type :=
| EvPrint (s : string)
| EvExt (c : ext)
| EvMeth (c : meth) (self : LatentDiffusion).

Record Outcome (A : Type) : Type := mkOutcome {
  final : World;
  trace : list event;
  value : result A
}.

Variable h_ext : forall c : ext, Env -> Env * result (ext_ret c).
Variable h_meth :
  forall c : meth, LatentDiffusion -> Env ->
                   LatentDiffusion * Env * result (meth_ret c).

Definition seen {A} (ev : event) (o : Outcome A) : Outcome A :=
  mkOutcome (final o) (ev :: trace o) (value o).

Fixpoint run {A} (p : prog A) (w : World) : Outcome A :=
  match p with
  | Ret a => mkOutcome w [] (Ok a)
  | Raise e => mkOutcome w [] (Err e)
  | Emit s k => seen (EvPrint s) (run k w)
  | Assign f k => run k (mkWorld (f (model w)) (env w))
  | CallExt c k =>
      let '(e, r) := h_ext c (env w) in
      seen (EvExt c) (run (k r) (mkWorld (model w) e))
  | CallMeth c k =>
      let '(m, e, r) := h_meth c (model w) (env w) in
      seen (EvMeth c (model w)) (run (k r) (mkWorld m e))
  end.

(** *** What the collaborators see of a run *)

(** The conditioning mode of the model: its conditioning key and the embed
    mode of its conditioning stage. *)
Definition cond_mode (ld : LatentDiffusion) : string * string :=
  (cond_stage_key ld, embed_mode (cond_stage_model ld)).

(** The calls that draw samples. *)
Definition sampling_call (c : meth) : bool :=
  match c with
  | generate_sample _ _ _ _ _
  | generate_sample_masked _ _ _ _ _ _ _
  | stochastic_encode _ _ _
  | decode _ _ _ _ _ _ => true
  | _ => false
  end.

(** Every sampling call of the trace finds the model in mode [mode]. *)
Definition samples_in_mode (mode : string * string) (t : list event) : Prop :=
  Forall (fun ev =>
            match ev with
            | EvMeth c self => sampling_call c = true -> cond_mode self = mode
            | _ => True
            end) t.

(** Some call of the trace satisfies [p]. *)
Definition called (p : meth -> bool) (t : list event) : bool :=
  existsb (fun ev => match ev with EvMeth c _ => p c | _ => false end) t.

Definition is_get_unconditional_condition (batchsize : Z) (c : meth) : bool :=
  match c with
  | get_unconditional_condition b => b =? batchsize
  | _ => false
  end.

Definition is_get_learned_conditioning (c : meth) : bool :=
  match c with
  | get_learned_conditioning _ => true
  | _ => false
  end.

(** The timesteps that reach the sampler: the tensor given to
    [stochastic_encode] and the start given to [decode]. *)
Definition start_timesteps (t : list event) : list (list Z) :=
  flat_map (fun ev =>
              match ev with
              | EvMeth (stochastic_encode _ _ ts) _ => [ts]
              | EvMeth (decode _ _ _ t_start _ _) _ => [[t_start]]
              | _ => []
              end) t.

(** The [duration] arguments that reach [generate_sample_masked]. *)
Definition forwarded_durations (t : list event) : list (option Py.num) :=
  flat_map (fun ev =>
              match ev with
              | EvMeth (generate_sample_masked _ _ _ _ d _ _) _ => [d]
              | _ => []
              end) t.

(** The collaborators leave a projection [f] of the model as they find
    it. *)
Definition preserves {B} (f : LatentDiffusion -> B) : Prop :=
  forall c m e, f (fst (fst (h_meth c m e))) = f m.

End Pipeline.

Definition audio_mode : string * string := ("waveform", "audio").
Definition text_mode : string * string := ("text", "text").

Arguments Ret {Obj Rest CsmRest A} a.
Arguments Raise {Obj Rest CsmRest A} e.
Arguments Emit {Obj Rest CsmRest A} s k.
Arguments Assign {Obj Rest CsmRest A} f k.
Arguments CallExt {Obj Rest CsmRest A} c k.
Arguments CallMeth {Obj Rest CsmRest A} c k.
Arguments of_result {Obj Rest CsmRest A} r.
Arguments of_io {Obj Rest CsmRest A} c.
Arguments call_ext {Obj Rest CsmRest} c.
Arguments call_meth {Obj Rest CsmRest} c.
Arguments print {Obj Rest CsmRest} s.
Arguments assign {Obj Rest CsmRest} f.
Arguments load_config {Obj Rest CsmRest} config.
Arguments make_stft {Obj Rest CsmRest} config.
Arguments is_get_learned_conditioning {Obj} c.
Arguments is_get_unconditional_condition {Obj} batchsize c.
Arguments sampling_call {Obj} c.
Arguments cuda_is_available {Obj}.
Arguments seed_everything {Obj} seed.
Arguments read_wav_file {Obj} filename segment_length.
Arguments open_file {Obj} path.
Arguments default_audioldm_config {Obj}.
Arguments einops_repeat {Obj} t pattern b.
Arguments no_grad_enter {Obj}.
Arguments no_grad_exit {Obj}.
Arguments autocast_enter {Obj} device_type.
Arguments autocast_exit {Obj}.
Arguments generate_sample {Obj}.
Arguments generate_sample_masked {Obj}.
Arguments encode_first_stage {Obj} x.
Arguments DDIMSampler {Obj}.
Arguments ema_scope_enter {Obj}.
Arguments ema_scope_exit {Obj}.
Arguments get_unconditional_condition {Obj} batchsize.
Arguments get_learned_conditioning {Obj} c.
Arguments EvPrint {Obj Rest CsmRest} s.
Arguments EvExt {Obj Rest CsmRest} c.
Arguments text_to_audio {Obj Rest CsmRest}.
Arguments style_transfer {Obj Rest CsmRest}.
Arguments super_resolution_and_inpainting {Obj Rest CsmRest}.

(** ** A concrete set of collaborators

    Stand-ins that always succeed and answer with the name of what they
    would compute; the model is left as it is.  They serve the closed
    examples below. *)
Module Stub.

Definition Obj : Type := string.
Definition Env : Type := list Z.            (* the seeds set so far *)
Definition LD : Type := LatentDiffusion unit unit.

Definition h_ext (c : ext Obj) : Env -> Env * result (ext_ret c) :=
  match c return Env -> Env * result (ext_ret c) with
  | cuda_is_available => fun e => (e, Ok false)
  | seed_everything seed => fun e => (seed :: e, Ok tt)
  | read_wav_file _ n => fun e => (e, Ok [1; n])
  | open_file path => fun e => (e, Ok path)
  | yaml_load _ => fun e => (e, Ok "config")
  | default_audioldm_config => fun e => (e, Ok "default config")
  | config_lookup _ _ _ key => fun e => (e, Ok key)
  | TacotronSTFT _ _ _ _ _ _ _ => fun e => (e, Ok "fn_STFT")
  | wav_to_fbank _ n _ =>
      fun e => (e, Ok ([n; 64], "log_magnitudes_stft", "energy"))
  | einops_repeat t _ b => fun e => (e, Ok (b :: tl t))
  | no_grad_enter | no_grad_exit => fun e => (e, Ok tt)
  | autocast_enter _ | autocast_exit => fun e => (e, Ok tt)
  end.

Definition h_meth (c : meth Obj) : LD -> Env -> LD * Env * result (meth_ret c) :=
  match c return LD -> Env -> LD * Env * result (meth_ret c) with
  | generate_sample _ _ _ _ _ => fun m e => (m, e, Ok "waveform")
  | generate_sample_masked _ _ _ _ _ _ _ => fun m e => (m, e, Ok "waveform")
  | encode_first_stage _ => fun m e => (m, e, Ok "posterior")
  | get_first_stage_encoding _ => fun m e => (m, e, Ok "init_latent")
  | DDIMSampler => fun m e => (m, e, Ok "sampler")
  | make_schedule _ _ _ _ => fun m e => (m, e, Ok tt)
  | ema_scope_enter | ema_scope_exit => fun m e => (m, e, Ok tt)
  | get_unconditional_condition _ => fun m e => (m, e, Ok "uc")
  | get_learned_conditioning _ => fun m e => (m, e, Ok "c")
  | stochastic_encode _ _ _ => fun m e => (m, e, Ok "z_enc")
  | decode _ _ _ _ _ _ => fun m e => (m, e, Ok "samples")
  | decode_first_stage _ => fun m e => (m, e, Ok "x_samples")
  | decode_to_waveform _ => fun m e => (m, e, Ok "waveform")
  end.

(** A model left in audio mode by an earlier request, and one in text
    mode as [build_model] returns it. *)
Definition audio_model : LD := mkLd "waveform" (mkCsm "audio" tt) 128 tt.
Definition text_model : LD := mkLd "text" (mkCsm "text" tt) 128 tt.

Definition exec {A} (m : LD) (p : prog Obj unit unit A)
  : Outcome Obj unit unit Env A :=
  run h_ext h_meth p (mkWorld m []).

End Stub.

(** ** Further notions for the properties below *)

(** The value of a fallible computation under a function. *)
Definition rmap {A B} (f : A -> B) (r : result A) : result B :=
  match r with
  | Ok a => Ok (f a)
  | Err e => Err e
  end.

(** [-x]. *)
Definition py_neg (x : Py.num) : Py.num :=
  match x with
  | Py.Int z => Py.Int (- z)
  | Py.Float f => Py.Float (SFopp f)
  end.

(** [int(duration * 102.4)]: the number of mel frames asked for. *)
Definition target_length (duration : Py.num) : result Z :=
  rbind (Py.mul duration (Py.Float Py.f102_4)) Py.int.

(** A float duration whose exponent keeps its products with the two
    constants out of the subnormal range; ints always are. *)
Definition above_subnormal (duration : Py.num) : Prop :=
  match duration with
  | Py.Float (S754_finite _ _ e) => -900 <= e
  | _ => True
  end.

(** Broadcasting of a shape to sizes that are not negative, aligned from
    the last dimension: each dimension is the size asked for or one. *)
Fixpoint broadcasts_rev (t sizes : list Z) : bool :=
  match t, sizes with
  | [], _ => true
  | _ :: _, [] => false
  | d :: t', s :: sizes' => ((d =? s) || (d =? 1)) && broadcasts_rev t' sizes'
  end.

Definition broadcasts_to (t sizes : list Z) : bool :=
  broadcasts_rev (rev t) (rev sizes).

(** *** What a trace shows *)

Section Observations.

Context {Obj Rest CsmRest : Type}.

(** Some call of the trace that does not go to the model satisfies [p]. *)
Definition called_ext (p : ext Obj -> bool) (t : list (event Obj Rest CsmRest))
  : bool :=
  existsb (fun ev => match ev with EvExt c => p c | _ => false end) t.

Definition any_call (c : meth Obj) : bool := true.

Definition is_sampling_entry (c : meth Obj) : bool :=
  match c with
  | generate_sample _ _ _ _ _ | generate_sample_masked _ _ _ _ _ _ _ => true
  | _ => false
  end.

Definition is_no_grad_enter (c : ext Obj) : bool :=
  match c with no_grad_enter => true | _ => false end.

Definition is_autocast_enter (c : ext Obj) : bool :=
  match c with autocast_enter _ => true | _ => false end.

Definition is_ema_scope_enter (c : meth Obj) : bool :=
  match c with ema_scope_enter => true | _ => false end.

Definition is_wav_to_fbank (c : ext Obj) : bool :=
  match c with wav_to_fbank _ _ _ => true | _ => false end.

Definition is_file_access (c : ext Obj) : bool :=
  match c with
  | open_file _ | yaml_load _ | read_wav_file _ _ | wav_to_fbank _ _ _ => true
  | _ => false
  end.

(** The calls inside the [ema_scope] block of [style_transfer]. *)
Definition in_ema_scope (c : meth Obj) : bool :=
  match c with
  | get_unconditional_condition _ | get_learned_conditioning _
  | stochastic_encode _ _ _ | decode _ _ _ _ _ _
  | decode_first_stage _ | decode_to_waveform _ => true
  | _ => false
  end.

Definition is_seed_everything (ev : event Obj Rest CsmRest) : bool :=
  match ev with EvExt (seed_everything _) => true | _ => false end.

Definition on_model (ev : event Obj Rest CsmRest) : bool :=
  match ev with EvMeth _ _ => true | _ => false end.

(** No event that satisfies [q] comes before the first one that satisfies
    [p]. *)
Fixpoint precedes (p q : event Obj Rest CsmRest -> bool)
    (t : list (event Obj Rest CsmRest)) : bool :=
  match t with
  | [] => true
  | ev :: t' => if p ev then true else if q ev then false else precedes p q t'
  end.

(** The exits of the context managers, by name. *)
Definition exit_name (ev : event Obj Rest CsmRest) : string :=
  match ev with
  | EvExt no_grad_exit => "no_grad"
  | EvExt autocast_exit => "autocast"
  | EvMeth ema_scope_exit _ => "ema_scope"
  | _ => ""
  end.

(** The sampler objects that the calls of a trace are made on. *)
Definition samplers (t : list (event Obj Rest CsmRest)) : list Obj :=
  flat_map (fun ev =>
              match ev with
              | EvMeth (make_schedule s _ _ _) _
              | EvMeth (stochastic_encode s _ _) _
              | EvMeth (decode s _ _ _ _ _) _ => [s]
              | _ => []
              end) t.

(** The last [n] events of a trace, as exits. *)
Definition last_exits (n : nat) (t : list (event Obj Rest CsmRest)) : list string :=
  rev (firstn n (rev (map exit_name t))).

(** The calls of a run by name, in order, without the prints and without
    the entries and exits of the context managers. *)
Definition stage (ev : event Obj Rest CsmRest) : list string :=
  match ev with
  | EvPrint _ => []
  | EvExt c =>
      match c with
      | cuda_is_available => ["torch.cuda.is_available"]
      | seed_everything _ => ["seed_everything"]
      | read_wav_file _ _ => ["read_wav_file"]
      | open_file _ => ["open"]
      | yaml_load _ => ["yaml.load"]
      | default_audioldm_config => ["default_audioldm_config"]
      | config_lookup _ _ _ key => [key]
      | TacotronSTFT _ _ _ _ _ _ _ => ["TacotronSTFT"]
      | wav_to_fbank _ _ _ => ["wav_to_fbank"]
      | einops_repeat _ _ _ => ["repeat"]
      | no_grad_enter | no_grad_exit | autocast_enter _ | autocast_exit => []
      end
  | EvMeth c _ =>
      match c with
      | generate_sample _ _ _ _ _ => ["generate_sample"]
      | generate_sample_masked _ _ _ _ _ _ _ => ["generate_sample_masked"]
      | encode_first_stage _ => ["encode_first_stage"]
      | get_first_stage_encoding _ => ["get_first_stage_encoding"]
      | DDIMSampler => ["DDIMSampler"]
      | make_schedule _ _ _ _ => ["make_schedule"]
      | ema_scope_enter | ema_scope_exit => []
      | get_unconditional_condition _ => ["get_unconditional_condition"]
      | get_learned_conditioning _ => ["get_learned_conditioning"]
      | stochastic_encode _ _ _ => ["stochastic_encode"]
      | decode _ _ _ _ _ _ => ["decode"]
      | decode_first_stage _ => ["decode_first_stage"]
      | decode_to_waveform _ => ["decode_to_waveform"]
      end
  end.

Definition stages (t : list (event Obj Rest CsmRest)) : list string :=
  flat_map stage t.

End Observations.

(** The calls of each entry point in the order of the source, for a run
    that goes through. *)
Definition load_config_plan (config : option config_arg) (rest : list string)
  : list string :=
  match config with
  | Some (ConfigStr _) => "open" :: "yaml.load" :: rest
  | Some ConfigOther => []
  | None => "default_audioldm_config" :: rest
  end.

Definition stft_plan : list string :=
  ["filter_length"; "hop_length"; "win_length"; "n_mel_channels";
   "sampling_rate"; "mel_fmin"; "mel_fmax"; "TacotronSTFT"].

Definition text_to_audio_plan (path : option string) : list string :=
  "seed_everything"
  :: match path with
     | Some _ => ["read_wav_file"; "generate_sample"]
     | None => ["generate_sample"]
     end.

Definition style_transfer_plan
    (config : option config_arg) (guidance_scale : Py.num) : list string :=
  "torch.cuda.is_available"
  :: load_config_plan config
       ("seed_everything"
        :: stft_plan
        ++ ["wav_to_fbank"; "repeat"; "encode_first_stage";
            "get_first_stage_encoding"; "DDIMSampler"; "make_schedule"]
        ++ (if Py.ne_one guidance_scale
            then ["get_unconditional_condition"] else [])
        ++ ["get_learned_conditioning"; "stochastic_encode"; "decode";
            "decode_first_stage"; "decode_to_waveform"]).

Definition super_resolution_plan (config : option config_arg) : list string :=
  "seed_everything"
  :: load_config_plan config
       (stft_plan ++ ["wav_to_fbank"; "generate_sample_masked"]).

(** ** Building the model ([build_model])

    [build_model] picks the device, loads the configuration, overrides two
    of the model's parameters, constructs the model, loads the checkpoint
    into it and puts it in evaluation mode and in text embed mode.  The
    configuration is a dictionary that the function writes to, so it is
    modelled as one; the model's constructor, [torch.load] and the model's
    loading methods are collaborators. *)

Module Build.

(** [torch.device("cuda:0")] and [torch.device("cpu")]. *)
Inductive device : Type := cuda0 | cpu.

Section Model.

Variables Obj Rest CsmRest Env : Type.

(** The values of a configuration: strings, devices, dictionaries with
    string keys, and anything else (numbers, lists, [None]). *)
#[warnings="-register-all"]
Inductive pyval : Type :=
| PStr (s : string)
| PDevice (d : device)
| PDict (items : list (string * pyval))
| POther (o : Obj).

Definition dict : Type := list (string * pyval).

(** A dictionary keeps its keys in insertion order; assigning to a key
    that is present replaces its value in place. *)
Fixpoint dict_get (key : string) (items : dict) : option pyval :=
  match items with
  | [] => None
  | (k, v) :: rest => if String.eqb k key then Some v else dict_get key rest
  end.

Fixpoint dict_set (key : string) (v : pyval) (items : dict) : dict :=
  match items with
  | [] => [(key, v)]
  | (k, x) :: rest =>
      if String.eqb k key then (k, v) :: rest else (k, x) :: dict_set key v rest
  end.

(** The dictionary's own exception for a missing key. *)
Definition KeyError (key : string) : exn := External ("KeyError: " ++ key).

(** [d[key]]. *)
Definition getitem (d : pyval) (key : string) : result pyval :=
  match d with
  | PDict items =>
      match dict_get key items with
      | Some v => Ok v
      | None => Err (KeyError key)
      end
  | _ => Err (TypeError "object is not subscriptable by a string")
  end.

(** [d[key] = v]. *)
Definition setitem (d : pyval) (key : string) (v : pyval) : result pyval :=
  match d with
  | PDict items => Ok (PDict (dict_set key v items))
  | _ => Err (TypeError "object does not support item assignment")
  end.

(** [config["model"]["params"][key] = v]: the two lookups, then the
    assignment, which the dictionary [config] sees since it holds the
    inner dictionaries by reference. *)
Definition set_param (config : pyval) (key : string) (v : pyval) : result pyval :=
  rbind (getitem config "model") (fun m =>
  rbind (getitem m "params") (fun p =>
  rbind (setitem p key v) (fun p' =>
  rbind (setitem m "params" p') (fun m' =>
  setitem config "model" m')))).

(** [**d]: the argument must be a mapping. *)
Definition as_kwargs (d : pyval) : result dict :=
  match d with
  | PDict items => Ok items
  | _ => Err (TypeError "argument after ** must be a mapping")
  end.

(** Lines 69 to 73: the keyword arguments that the model's constructor
    receives. *)
Definition model_kwargs (config : pyval) (device : device) : result dict :=
  rbind (set_param config "device" (PDevice device)) (fun config =>
  rbind (set_param config "cond_stage_key" (PStr "text")) (fun config =>
  rbind (getitem config "model") (fun m =>
  rbind (getitem m "params") as_kwargs))).

(** The collaborators; a method of the model answers with the model as
    the call leaves it. *)
Inductive call : Type :=
| cuda_is_available
| open_file (path : string)
| yaml_load (file : Obj)
| default_audioldm_config
| LatentDiffusion_init (kwargs : dict)
| torch_load (f : string) (map_location : device)
| checkpoint_getitem (checkpoint : Obj) (key : string)
| load_state_dict (self : LatentDiffusion Rest CsmRest) (state_dict : Obj)
| eval_ (self : LatentDiffusion Rest CsmRest)
| to (self : LatentDiffusion Rest CsmRest) (d : device).

Definition ret_type (c : call) : Type :=
  match c with
  | cuda_is_available => bool
  | open_file _ => Obj
  | yaml_load _ => pyval
  | default_audioldm_config => pyval
  | LatentDiffusion_init _ => LatentDiffusion Rest CsmRest
  | torch_load _ _ => Obj
  | checkpoint_getitem _ _ => Obj
  | load_state_dict _ _ => LatentDiffusion Rest CsmRest
  | eval_ _ => LatentDiffusion Rest CsmRest
  | to _ _ => LatentDiffusion Rest CsmRest
  end.

Variable h : forall c : call, Env -> Env * result (ret_type c).

(** A run: the state the collaborators are left in, the calls made, and
    the value returned or the exception raised. *)
Record Run (A : Type) : Type := mkRun {
  env_after : Env;
  calls : list call;
  outcome : result A
}.

Definition M (A : Type) : Type := Env -> Run A.

Definition pure {A} (a : A) : M A := fun e => mkRun e [] (Ok a).

Definition lift {A} (r : result A) : M A := fun e => mkRun e [] r.

Definition bind {A B} (m : M A) (k : A -> M B) : M B :=
  fun e =>
    match m e with
    | mkRun e1 c1 (Ok a) =>
        match k a e1 with
        | mkRun e2 c2 r => mkRun e2 (c1 ++ c2) r
        end
    | mkRun e1 c1 (Err x) => mkRun e1 c1 (Err x)
    end.

Definition invoke (c : call) : M (ret_type c) :=
  fun e => let '(e', r) := h c e in mkRun e' [c] r.

Declare Scope build_scope.
Delimit Scope build_scope with build.
Notation "x <- c ;; k" := (bind c (fun x => k))
  (at level 61, c at next level, right associativity) : build_scope.

Definition build_model (ckpt_path : string) (config : option config_arg)
  : M (LatentDiffusion Rest CsmRest) :=
  (cuda <- invoke cuda_is_available ;;
   let device := if cuda : bool then cuda0 else cpu in
   config <- match config with
             | Some (ConfigStr path) =>
                 f <- invoke (open_file path) ;;
                 invoke (yaml_load f)
             | Some ConfigOther => lift (Err (AssertionError "type(config) is str"))
             | None => invoke default_audioldm_config
             end ;;
   kwargs <- lift (model_kwargs config device) ;;
   latent_diffusion <- invoke (LatentDiffusion_init kwargs) ;;
   let resume_from_checkpoint := ckpt_path in
   checkpoint <- invoke (torch_load resume_from_checkpoint device) ;;
   state_dict <- invoke (checkpoint_getitem checkpoint "state_dict") ;;
   latent_diffusion <- invoke (load_state_dict latent_diffusion state_dict) ;;
   latent_diffusion <- invoke (eval_ latent_diffusion) ;;
   latent_diffusion <- invoke (to latent_diffusion device) ;;
   pure (set_embed_mode "text" latent_diffusion))%build.

(** The calls by name, and the calls of a run that goes through, in
    order. *)
Definition name (c : call) : string :=
  match c with
  | cuda_is_available => "torch.cuda.is_available"
  | open_file _ => "open"
  | yaml_load _ => "yaml.load"
  | default_audioldm_config => "default_audioldm_config"
  | LatentDiffusion_init _ => "LatentDiffusion"
  | torch_load _ _ => "torch.load"
  | checkpoint_getitem _ _ => "checkpoint.__getitem__"
  | load_state_dict _ _ => "load_state_dict"
  | eval_ _ => "eval"
  | to _ _ => "to"
  end.

Definition plan (config : option config_arg) : list string :=
  "torch.cuda.is_available"
  :: match config with
     | Some (ConfigStr _) =>
         ["open"; "yaml.load"; "LatentDiffusion"; "torch.load";
          "checkpoint.__getitem__"; "load_state_dict"; "eval"; "to"]
     | Some ConfigOther => []
     | None =>
         ["default_audioldm_config"; "LatentDiffusion"; "torch.load";
          "checkpoint.__getitem__"; "load_state_dict"; "eval"; "to"]
     end.

End Model.

Arguments PStr {Obj} s.
Arguments PDevice {Obj} d.
Arguments PDict {Obj} items.
Arguments POther {Obj} o.
Arguments cuda_is_available {Obj Rest CsmRest}.
Arguments open_file {Obj Rest CsmRest} path.
Arguments yaml_load {Obj Rest CsmRest} file.
Arguments default_audioldm_config {Obj Rest CsmRest}.
Arguments LatentDiffusion_init {Obj Rest CsmRest} kwargs.
Arguments torch_load {Obj Rest CsmRest} f map_location.
Arguments checkpoint_getitem {Obj Rest CsmRest} checkpoint key.
Arguments load_state_dict {Obj Rest CsmRest} self state_dict.
Arguments eval_ {Obj Rest CsmRest} self.
Arguments to {Obj Rest CsmRest} self d.

(** Stand-ins for the closed examples: a constructor that keeps the
    conditioning key it is given, and loading calls that leave the model
    as it is. *)
Definition stub_config : pyval string :=
  PDict [("model",
          PDict [("target", PStr "audioldm.LatentDiffusion");
                 ("params",
                  PDict [("cond_stage_key", PStr "waveform");
                         ("latent_t_size", POther "256")])])].

Definition stub (c : call string unit unit)
  : list string -> list string * result (ret_type c) :=
  match c return list string -> list string * result (ret_type c) with
  | cuda_is_available => fun e => (e, Ok false)
  | open_file path => fun e => (path :: e, Ok path)
  | yaml_load _ => fun e => (e, Ok stub_config)
  | default_audioldm_config => fun e => (e, Ok stub_config)
  | LatentDiffusion_init kwargs =>
      fun e =>
        (e, Ok (mkLd match dict_get "cond_stage_key" kwargs with
                     | Some (PStr s) => s
                     | _ => ""
                     end (mkCsm "audio" tt) 256 tt))
  | torch_load f _ => fun e => (f :: e, Ok "checkpoint")
  | checkpoint_getitem _ key => fun e => (e, Ok key)
  | load_state_dict self _ => fun e => (e, Ok self)
  | eval_ self => fun e => (e, Ok self)
  | to self _ => fun e => (e, Ok self)
  end.

End Build.

(** * Properties *)

Unset Implicit Arguments.

(** ** Python arithmetic *)

Lemma scaled_quot_div_pos (m : positive) (e : Z) :
  Py.scaled_quot (Z.pos m) e = Py.scaled_div (Z.pos m) e.
Proof.
  unfold Py.scaled_quot, Py.scaled_div.
  destruct (Z.leb_spec 0 e); [reflexivity|].
  apply Z.quot_div_nonneg; [lia|].
  apply Z.pow_pos_nonneg; lia.
Qed.

Lemma binary_round_aux_sign (s : bool) (m e : Z) (l : location) :
  match binary_round_aux Py.prec Py.emax s m e l with
  | S754_finite s' _ _ => s' = s
  | _ => True
  end.
Proof.
  unfold binary_round_aux.
  destruct (shr_fexp Py.prec Py.emax m e l) as [mrs e'].
  destruct (shr_fexp Py.prec Py.emax _ e' loc_Exact) as [mrs' e''].
  destruct (shr_m mrs'); auto.
  destruct (e'' <=? Py.emax - Py.prec); auto.
Qed.

Lemma nonneg_unsigned (f : spec_float) :
  SFleb (S754_zero false) f = true -> Py.unsigned_float f = true.
Proof. destruct f as [s|[]| |[] m e]; simpl; intros H; auto; discriminate. Qed.

Lemma float_of_int_unsigned (z : Z) (f : spec_float) :
  0 <= z -> Py.float_of_int z = Ok f -> Py.unsigned_float f = true.
Proof.
  intros Hz. unfold Py.float_of_int, binary_normalize.
  destruct z as [|p|p]; [| |lia].
  - intros H. injection H as <-. reflexivity.
  - unfold binary_round.
    destruct (shl_align p 0 _) as [mz ez].
    pose proof (binary_round_aux_sign false (Z.pos mz) ez loc_Exact) as Hs.
    destruct (binary_round_aux _ _ _ _ _ _) as [s|s| |s m e];
      intros H; try discriminate; injection H as <-; subst; reflexivity.
Qed.

Lemma SFmul_unsigned (x y : spec_float) :
  Py.unsigned_float x = true -> Py.unsigned_float y = true ->
  Py.int (Py.Float (SFmul Py.prec Py.emax x y))
  = Py.floor (Py.Float (SFmul Py.prec Py.emax x y)).
Proof.
  intros Hx Hy.
  destruct x as [sx|sx| |sx mx ex]; destruct y as [sy|sy| |sy my ey];
    try discriminate; try reflexivity.
  destruct sx; [discriminate|]. destruct sy; [discriminate|].
  unfold SFmul. simpl xorb.
  pose proof (binary_round_aux_sign false (Z.pos (mx * my)) (ex + ey) loc_Exact) as Hs.
  destruct (binary_round_aux _ _ _ _ _ _) as [s|s| |s m e]; try reflexivity.
  subst s. simpl. now rewrite scaled_quot_div_pos.
Qed.

(** The product of two numbers that are not negative truncates to its
    floor. *)
Lemma int_mul_floor (x y : Py.num) :
  Py.nonneg x = true -> Py.nonneg y = true ->
  rbind (Py.mul x y) Py.int = rbind (Py.mul x y) Py.floor.
Proof.
  intros Hx Hy.
  destruct x as [a|fx], y as [b|fy]; simpl in *.
  - reflexivity.
  - destruct (Py.float_of_int a) as [fa|] eqn:Ha; [|reflexivity].
    apply SFmul_unsigned; [|now apply nonneg_unsigned].
    apply (float_of_int_unsigned a); [lia|assumption].
  - destruct (Py.float_of_int b) as [fb|] eqn:Hb; [|reflexivity].
    apply SFmul_unsigned; [now apply nonneg_unsigned|].
    apply (float_of_int_unsigned b); [lia|assumption].
  - apply SFmul_unsigned; now apply nonneg_unsigned.
Qed.

(** *** Conversion of an int below [2^53] to a float is exact *)

Lemma digits2_pos_bounds (p : positive) :
  2 ^ (Z.pos (digits2_pos p) - 1) <= Z.pos p < 2 ^ Z.pos (digits2_pos p).
Proof.
  induction p as [p IH|p IH|]; simpl digits2_pos.
  - rewrite Pos2Z.inj_succ.
    replace (Z.succ (Z.pos (digits2_pos p)) - 1) with (Z.succ (Z.pos (digits2_pos p) - 1)) by lia.
    rewrite !Z.pow_succ_r by lia. lia.
  - rewrite Pos2Z.inj_succ.
    replace (Z.succ (Z.pos (digits2_pos p)) - 1) with (Z.succ (Z.pos (digits2_pos p) - 1)) by lia.
    rewrite !Z.pow_succ_r by lia. lia.
  - simpl. lia.
Qed.

Lemma digits2_pos_le (p : positive) (n : Z) :
  Z.pos p < 2 ^ n -> Z.pos (digits2_pos p) <= n.
Proof.
  intros H. destruct (Z.le_gt_cases (Z.pos (digits2_pos p)) n) as [|Hgt]; [assumption|].
  exfalso.
  pose proof (digits2_pos_bounds p) as [Hlo _].
  assert (0 <= n) by (destruct n; [lia|lia|simpl in H; lia]).
  assert (2 ^ n <= 2 ^ (Z.pos (digits2_pos p) - 1))
    by (apply Z.pow_le_mono_r; lia).
  lia.
Qed.

Lemma iter_xO_digits (p k : positive) :
  digits2_pos (Pos.iter xO p k) = (digits2_pos p + k)%positive.
Proof.
  induction k as [|k IH] using Pos.peano_ind.
  - simpl. now rewrite Pos.add_1_r.
  - rewrite Pos.iter_succ. simpl. rewrite IH. lia.
Qed.

Lemma iter_xO_value (p k : positive) :
  Z.pos (Pos.iter xO p k) = Z.pos p * 2 ^ Z.pos k.
Proof.
  induction k as [|k IH] using Pos.peano_ind.
  - simpl. lia.
  - rewrite Pos.iter_succ, Pos2Z.inj_succ, Z.pow_succ_r by lia.
    rewrite Pos2Z.inj_xO, IH. lia.
Qed.

Lemma fexp_normal (e : Z) :
  -1021 <= e -> fexp Py.prec Py.emax e = e - 53.
Proof. unfold fexp, emin, Py.prec, Py.emax. lia. Qed.

(** A mantissa of 53 digits with an exponent in range is already
    rounded. *)
Lemma shr_fexp_canonical (m : positive) (e : Z) :
  Z.pos (digits2_pos m) = 53 -> -1074 <= e ->
  shr_fexp Py.prec Py.emax (Z.pos m) e loc_Exact
  = (Build_shr_record (Z.pos m) false false, e).
Proof.
  intros Hd He. unfold shr_fexp. cbn [Zdigits2]. rewrite Hd.
  rewrite fexp_normal by lia.
  replace (53 + e - 53 - e) with 0 by lia. reflexivity.
Qed.

Lemma binary_round_aux_canonical (s : bool) (m : positive) (e : Z) :
  Z.pos (digits2_pos m) = 53 -> -1074 <= e <= 971 ->
  binary_round_aux Py.prec Py.emax s (Z.pos m) e loc_Exact = S754_finite s m e.
Proof.
  intros Hd He.
  unfold binary_round_aux. rewrite shr_fexp_canonical by lia.
  cbn [shr_m loc_of_shr_record round_nearest_even].
  rewrite shr_fexp_canonical by lia. cbn [shr_m].
  unfold Py.emax, Py.prec.
  destruct (Z.leb_spec e (1024 - 53)); [reflexivity|lia].
Qed.

Lemma float_of_int_exact (p : positive) :
  Z.pos p < 2 ^ 53 ->
  exists (m : positive) (e : Z),
    Py.float_of_int (Z.pos p) = Ok (S754_finite false m e) /\
    Z.pos (digits2_pos m) = 53 /\ -52 <= e <= 0 /\
    Z.pos m = Z.pos p * 2 ^ (- e).
Proof.
  intros Hp.
  pose proof (@digits2_pos_le p 53 Hp) as Hd.
  unfold Py.float_of_int, binary_normalize, binary_round, shl_align.
  rewrite fexp_normal by lia.
  destruct (Z.pos (digits2_pos p) + 0 - 53 - 0) as [|k|k] eqn:Hk; [|lia|].
  - exists p, 0. rewrite binary_round_aux_canonical by lia.
    repeat split; try lia.
  - exists (Pos.iter xO p k), (Z.pos (digits2_pos p) + 0 - Py.prec).
    assert (Hdk : Z.pos (digits2_pos (Pos.iter xO p k)) = 53)
      by (rewrite iter_xO_digits; lia).
    unfold Py.prec in *.
    rewrite binary_round_aux_canonical by lia.
    repeat split; try lia.
    rewrite iter_xO_value. f_equal. f_equal. lia.
Qed.

Lemma SFmul_one_l (m : positive) (e : Z) :
  Z.pos (digits2_pos m) = 53 -> -52 <= e <= 0 ->
  SFmul Py.prec Py.emax Py.f1_0 (S754_finite false m e) = S754_finite false m e.
Proof.
  intros Hd He.
  assert (Hdig : Z.pos (digits2_pos (4503599627370496 * m)) = 105).
  { change (4503599627370496 * m)%positive with (Pos.iter xO m 52).
    rewrite iter_xO_digits. lia. }
  unfold SFmul, Py.f1_0. cbn [xorb].
  unfold binary_round_aux at 1. unfold shr_fexp at 1.
  cbn [Zdigits2]. rewrite Hdig. rewrite fexp_normal by lia.
  replace (105 + (-52 + e) - 53 - (-52 + e)) with 52 by lia.
  unfold shr.
  change (iter_pos shr_1 52 (shr_record_of_loc (Z.pos (4503599627370496 * m)) loc_Exact))
    with (Build_shr_record (Z.pos m) false false).
  cbn [shr_m loc_of_shr_record round_nearest_even].
  replace (-52 + e + 52) with e by lia.
  rewrite shr_fexp_canonical by lia. cbn [shr_m].
  unfold Py.emax, Py.prec.
  destruct (Z.leb_spec e (1024 - 53)); [reflexivity|lia].
Qed.

Lemma scaled_quot_exact (p m : positive) (e : Z) :
  e <= 0 -> Z.pos m = Z.pos p * 2 ^ (- e) ->
  Py.scaled_quot (Z.pos m) e = Z.pos p.
Proof.
  intros He Hm. unfold Py.scaled_quot. rewrite Hm.
  destruct (Z.leb_spec 0 e).
  - replace e with 0 by lia. simpl. lia.
  - apply Z.quot_mul. apply Z.pow_nonzero; lia.
Qed.

(** [int(1.0 * n) = n] and [int(0.0 * n) = 0] for an int [n] that a
    double holds exactly. *)
Lemma t_enc_of_one_float (ddim_steps : Z) :
  0 <= ddim_steps < 2 ^ 53 ->
  t_enc_of (Py.Float Py.f1_0) ddim_steps = Ok ddim_steps.
Proof.
  intros H. unfold t_enc_of, Py.mul. cbn [Py.to_float rbind].
  destruct ddim_steps as [|p|p]; [reflexivity| |lia].
  destruct (@float_of_int_exact p) as (m & e & Hf & Hd & He & Hm); [lia|].
  rewrite Hf. cbn [rbind]. rewrite SFmul_one_l by assumption.
  cbn [Py.int Py.signed]. f_equal. apply scaled_quot_exact; [lia|assumption].
Qed.

Lemma t_enc_of_zero_float (ddim_steps : Z) :
  0 <= ddim_steps < 2 ^ 53 ->
  t_enc_of (Py.Float Py.f0_0) ddim_steps = Ok 0.
Proof.
  intros H. unfold t_enc_of, Py.mul. cbn [Py.to_float rbind].
  destruct ddim_steps as [|p|p]; [reflexivity| |lia].
  destruct (@float_of_int_exact p) as (m & e & Hf & _); [lia|].
  rewrite Hf. reflexivity.
Qed.

(** ** Tensor shapes *)

Lemma expand_dim_target (d s x : Z) :
  Torch.expand_dim d s = Ok x -> s <> -1 -> x = s.
Proof.
  unfold Torch.expand_dim.
  destruct (Z.eqb_spec s (-1)); [intros _ Hs; contradiction|].
  destruct (Z.eqb_spec s d); [intros H _; injection H as <-; congruence|].
  destruct ((d =? 1) && (0 <=? s)); intros H _; [|discriminate].
  now injection H as <-.
Qed.

(** Every size that is not [-1] is the size of the expanded tensor at that
    position. *)
Lemma expand_rev_sizes (sizes : list Z) :
  forall t r, Torch.expand_rev t sizes = Ok r ->
              Forall2 (fun s x => s <> -1 -> x = s) sizes r.
Proof.
  induction sizes as [|s sizes IH]; intros t r H; simpl in H.
  - destruct t; [|discriminate]. injection H as <-. constructor.
  - destruct t as [|d t].
    + destruct (s <? 0); [discriminate|].
      destruct (Torch.expand_rev [] sizes) as [r'|] eqn:Hr; [|discriminate].
      simpl in H. injection H as <-. constructor; [auto|]. eapply IH; eauto.
    + destruct (Torch.expand_dim d s) as [x|] eqn:Hx; [|discriminate].
      simpl in H.
      destruct (Torch.expand_rev t sizes) as [r'|] eqn:Hr; [|discriminate].
      simpl in H. injection H as <-. constructor.
      * intros Hs. eapply expand_dim_target; eauto.
      * eapply IH; eauto.
Qed.

Lemma Forall2_rev_rev {A B} (P : A -> B -> Prop) (l : list A) (l' : list B) :
  Forall2 P l l' -> Forall2 P (rev l) (rev l').
Proof.
  induction 1; simpl; [constructor|].
  apply Forall2_app; [assumption|]. constructor; [assumption|constructor].
Qed.

Lemma expand_size0 (t t' : Torch.tensor) (n : Z) (sizes : list Z) :
  Torch.expand t (n :: sizes) = Ok t' -> n <> -1 -> Torch.size0 t' = Ok n.
Proof.
  unfold Torch.expand. intros H Hn.
  destruct (Torch.expand_rev (rev t) (rev (n :: sizes))) as [r|] eqn:Hr;
    [|discriminate].
  simpl in H. injection H as <-.
  apply expand_rev_sizes, Forall2_rev_rev in Hr.
  rewrite rev_involutive in Hr.
  inversion Hr as [|s x l l' Hsx Hl]; subst.
  simpl. f_equal. auto.
Qed.

Lemma zeros_ok (shape t : list Z) :
  Torch.zeros shape = Ok t -> t = shape /\ Forall (fun d => 0 <= d) shape.
Proof.
  unfold Torch.zeros. destruct (forallb _ shape) eqn:H; [|discriminate].
  intros E. injection E as <-. split; [reflexivity|].
  rewrite forallb_forall in H. apply Forall_forall. intros d Hd.
  apply H in Hd. lia.
Qed.

(** ** The batch builder *)

Lemma fst_io_bind {A B} (c : io A) (k : A -> io B) :
  fst (io_bind c k)
  = fst c ++ match snd c with Ok a => fst (k a) | Err _ => [] end.
Proof.
  destruct c as [out [a|e]]; simpl; [|now rewrite app_nil_r].
  now destruct (k a).
Qed.

Lemma snd_io_bind {A B} (c : io A) (k : A -> io B) :
  snd (io_bind c k) = rbind (snd c) (fun a => snd (k a)).
Proof. destruct c as [out [a|e]]; simpl; [|reflexivity]. now destruct (k a). Qed.

Lemma fst_io_lift {A} (r : result A) : fst (io_lift r) = [].
Proof. reflexivity. Qed.

Lemma fst_io_assert (b : bool) (stmt : string) : fst (io_assert b stmt) = [].
Proof. now destruct b. Qed.

Lemma fst_io_bind_nil {A B} (c : io A) (k : A -> io B) :
  fst c = [] -> (forall a, fst (k a) = []) -> fst (io_bind c k) = [].
Proof.
  intros Hc Hk. rewrite fst_io_bind, Hc. destruct (snd c); simpl; auto.
Qed.

Create HintDb io_silent.
#[local] Hint Resolve fst_io_lift fst_io_assert fst_io_bind_nil : io_silent.

(** What the batch builder prints, and what it returns or raises: the
    fields are built in the order fbank, stft, waveform. *)
Lemma make_batch_printed text waveform fbank batchsize :
  fst (make_batch_for_text_to_audio text waveform fbank batchsize)
  = if batchsize <? 1 then [batchsize_warning] else [].
Proof.
  unfold make_batch_for_text_to_audio.
  rewrite fst_io_bind.
  destruct (batchsize <? 1); cbn [fst snd io_print io_ret];
    match goal with
    | |- _ ++ fst ?r = _ => assert (Hr : fst r = []); [|now rewrite Hr]
    end;
    (apply fst_io_bind_nil;
     [destruct fbank; auto 10 with io_silent
     |intros; apply fst_io_bind_nil; [auto with io_silent|];
      intros; apply fst_io_bind_nil;
      [destruct waveform; auto 10 with io_silent|reflexivity]]).
Qed.

Lemma make_batch_value text waveform fbank batchsize :
  snd (make_batch_for_text_to_audio text waveform fbank batchsize)
  = batch_value text waveform fbank batchsize.
Proof.
  unfold make_batch_for_text_to_audio, batch_value, checked_expand.
  unfold io_bind, io_lift, io_assert, io_ret, io_print.
  destruct (batchsize <? 1), fbank as [f|], waveform as [w|]; simpl;
    repeat match goal with
           | |- context [match ?x with _ => _ end] =>
               lazymatch x with
               | context [match _ with _ => _ end] => fail
               | _ => destruct x; simpl
               end
           end; reflexivity.
Qed.

Lemma checked_expand_ok a sizes n stmt t :
  checked_expand a (n :: sizes) n stmt = Ok t ->
  Torch.expand a (n :: sizes) = Ok t /\ Torch.size0 t = Ok n.
Proof.
  unfold checked_expand, Torch.FloatTensor.
  destruct (Torch.expand a (n :: sizes)) as [t'|]; [|discriminate]. simpl.
  destruct (Torch.size0 t') as [k|] eqn:Hk; [|discriminate]. simpl.
  destruct (Z.eqb_spec k n); [|discriminate].
  intros H. injection H as <-. subst. auto.
Qed.

Lemma expand_rev_error (sizes : list Z) :
  forall t e, Torch.expand_rev t sizes = Err e -> exists op, e = RuntimeError op.
Proof.
  induction sizes as [|x sz IH]; intros [|d t] e; simpl; try discriminate.
  - intros H. injection H as <-. eauto.
  - destruct (x <? 0); [intros H; injection H as <-; eauto|].
    destruct (Torch.expand_rev [] sz) eqn:E; [discriminate|].
    simpl. intros H. injection H as <-. eapply IH; eauto.
  - unfold Torch.expand_dim.
    destruct (x =? -1); [|destruct (x =? d); [|destruct ((d =? 1) && (0 <=? x))]];
      simpl; try (intros H; injection H as <-; eauto; fail);
      destruct (Torch.expand_rev t sz) eqn:E; try discriminate;
      simpl; intros H; injection H as <-; eapply IH; eauto.
Qed.

Lemma expand_error (t sizes : list Z) (e : exn) :
  Torch.expand t sizes = Err e -> exists op, e = RuntimeError op.
Proof.
  unfold Torch.expand.
  destruct (Torch.expand_rev (rev t) (rev sizes)) eqn:E; [discriminate|].
  simpl. intros H. injection H as <-. eapply expand_rev_error; eauto.
Qed.

Lemma checked_expand_assertion a sizes n stmt :
  raises_assertion (checked_expand a (n :: sizes) n stmt) <->
  broadcast_mismatch (Some a) (n :: sizes) n.
Proof.
  unfold raises_assertion, broadcast_mismatch, checked_expand. split.
  - intros [s H].
    destruct (Torch.expand (Torch.FloatTensor a) (n :: sizes)) as [t|e] eqn:Ht.
    + simpl in H. destruct (Torch.size0 t) as [k|e] eqn:Hk.
      * simpl in H. destruct (Z.eqb_spec k n); [discriminate|].
        exists a, t, k. auto.
      * destruct t; [|discriminate]. simpl in Hk, H. congruence.
    + apply expand_error in Ht as [op ->]. discriminate.
  - intros (a' & t & k & Ha & Ht & Hk & Hne). injection Ha as <-.
    rewrite Ht. simpl. rewrite Hk. simpl.
    destruct (Z.eqb_spec k n); [contradiction|]. eauto.
Qed.

Lemma zeros_error (shape : list Z) (e : exn) :
  Torch.zeros shape = Err e -> exists op, e = RuntimeError op.
Proof.
  unfold Torch.zeros. destruct (forallb _ shape); [discriminate|].
  intros H. injection H as <-. eauto.
Qed.

(** C3.  For every batchsize of at least one, the batch that the builder
    returns has a text list and a filename list of batchsize entries and
    an fbank, an stft and a waveform tensor whose leading dimension is
    batchsize; with no optional input the builder does return a batch. *)
Theorem make_batch_sizes
    (prompt : string) (wav mel : option (list Z)) (batchsize : Z) :
  1 <= batchsize ->
  (exists b,
     snd (make_batch_for_text_to_audio prompt None None batchsize) = Ok b) /\
  (forall b,
     snd (make_batch_for_text_to_audio prompt wav mel batchsize) = Ok b ->
     Z.of_nat (List.length (text b)) = batchsize /\
     Z.of_nat (List.length (fname b)) = batchsize /\
     Torch.size0 (fbank b) = Ok batchsize /\
     Torch.size0 (stft b) = Ok batchsize /\
     Torch.size0 (waveform b) = Ok batchsize).
Proof.
  intros Hb. split.
  - rewrite make_batch_value; unfold batch_value. unfold Torch.zeros. simpl forallb.
    destruct (Z.leb_spec 0 batchsize); [|lia]. simpl. eauto.
  - intros b. rewrite make_batch_value; unfold batch_value.
    destruct (match mel with Some _ => _ | None => _ end) as [f|] eqn:Hf;
      [|discriminate].
    simpl. destruct (Torch.zeros [batchsize; 1024; 512]) as [s|] eqn:Hs;
      [|discriminate].
    simpl. destruct (match wav with Some _ => _ | None => _ end) as [w|] eqn:Hw;
      [|discriminate].
    simpl. intros H. injection H as <-. simpl.
    unfold list_times. rewrite !repeat_length.
    apply zeros_ok in Hs as [-> _].
    repeat split; try lia.
    + destruct mel as [a|].
      * now apply checked_expand_ok in Hf.
      * now apply zeros_ok in Hf as [-> _].
    + destruct wav as [a|].
      * now apply checked_expand_ok in Hw.
      * now apply zeros_ok in Hw as [-> _].
Qed.

Lemma make_batch_sizes_witness :
  1 <= 2 /\
  exists b,
    snd (make_batch_for_text_to_audio "a dog" (Some [1; 163840]) None 2) = Ok b /\
    Z.of_nat (List.length (text b)) = 2 /\
    Torch.size0 (waveform b) = Ok 2.
Proof.
  split; [lia|]. eexists. split; [reflexivity|].
  edestruct (make_batch_sizes "a dog" (Some [1; 163840]) None 2)
    as [_ H]; [lia|].
  specialize (H _ eq_refl). intuition.
Defined.

Lemma assertion_iff_fbank_mismatch
    (prompt : string) (wav mel : option (list Z)) (batchsize : Z) :
  raises_assertion (snd (make_batch_for_text_to_audio prompt wav mel batchsize))
  <-> broadcast_mismatch mel [batchsize; 1024; 64] batchsize.
Proof.
  rewrite make_batch_value; unfold batch_value. split.
  - intros [stmt H].
    destruct mel as [a|].
    + destruct (checked_expand a _ batchsize _) as [f|e] eqn:Hf.
      * exfalso. simpl in H.
        destruct (Torch.zeros [batchsize; 1024; 512]) as [s|e] eqn:Hs;
          [|apply zeros_error in Hs as [op ->]; discriminate].
        apply zeros_ok in Hs as [_ Hs]. inversion_clear Hs as [|? ? Hpos _].
        simpl in H. destruct wav as [w|].
        -- destruct (checked_expand w _ batchsize _) as [w'|e] eqn:Hw;
             [discriminate|].
           simpl in H. injection H as ->.
           assert (Hm : raises_assertion
                          (checked_expand w [batchsize; -1] batchsize
                             "waveform.size(0) == batchsize"))
             by (rewrite Hw; red; eauto).
           apply checked_expand_assertion in Hm
             as (a' & t & n & Ha & Ht & Hn & Hne).
           apply expand_size0 in Ht; [congruence|lia].
        -- destruct (Torch.zeros [batchsize; 160000]) eqn:Hz; [discriminate|].
           apply zeros_error in Hz as [op ->]. discriminate.
      * simpl in H. injection H as ->.
        apply (proj1 (checked_expand_assertion a [1024; 64] batchsize
                        "fbank.size(0) == batchsize")).
        rewrite Hf. red; eauto.
    + exfalso.
      destruct (Torch.zeros [batchsize; 1024; 64]) as [f|e] eqn:Hf;
        [|apply zeros_error in Hf as [op ->]; discriminate].
      apply zeros_ok in Hf as [_ Hf]. inversion_clear Hf as [|? ? Hpos _].
      simpl in H.
      destruct (Torch.zeros [batchsize; 1024; 512]) as [s|e] eqn:Hs;
        [|apply zeros_error in Hs as [op ->]; discriminate].
      simpl in H. destruct wav as [w|].
      * destruct (checked_expand w _ batchsize _) as [w'|e] eqn:Hw;
          [discriminate|].
        simpl in H. injection H as ->.
        assert (Hm : raises_assertion
                       (checked_expand w [batchsize; -1] batchsize
                          "waveform.size(0) == batchsize"))
          by (rewrite Hw; red; eauto).
        apply checked_expand_assertion in Hm
          as (a' & t & n & Ha & Ht & Hn & Hne).
        apply expand_size0 in Ht; [congruence|lia].
      * destruct (Torch.zeros [batchsize; 160000]) eqn:Hz; [discriminate|].
        apply zeros_error in Hz as [op ->]. discriminate.
  - intros (a & t & n & -> & Ht & Hn & Hne).
    assert (Hm : raises_assertion
                   (checked_expand a [batchsize; 1024; 64] batchsize
                      "fbank.size(0) == batchsize"))
      by (apply checked_expand_assertion; red; eauto 10).
    destruct Hm as [stmt ->]. red. simpl. eauto.
Qed.

(** C2, as the code has it.  The builder raises an assertion error exactly
    when a provided fbank is broadcast to a tensor whose leading dimension
    differs from batchsize; in particular it raises none when the sizes
    match.  A provided waveform never reaches its assertion with a
    mismatch: the size check can only fail for a batchsize of [-1], and
    then an earlier statement has already raised ([torch.zeros], or with an
    fbank provided [expand] or the assertion on the fbank). *)
Theorem make_batch_assertion_iff
    (prompt : string) (wav mel : option (list Z)) (batchsize : Z) :
  raises_assertion (snd (make_batch_for_text_to_audio prompt wav mel batchsize))
  <-> broadcast_mismatch mel [batchsize; 1024; 64] batchsize.
Proof. apply assertion_iff_fbank_mismatch. Qed.

Lemma make_batch_assertion_iff_witness :
  raises_assertion
    (snd (make_batch_for_text_to_audio "a dog" None (Some [1; 1024; 64]) (-1))).
Proof.
  apply (make_batch_assertion_iff "a dog" None (Some [1; 1024; 64]) (-1)).
  exists [1; 1024; 64], [1; 1024; 64], 1.
  repeat split; [lia].
Defined.

(** C2 as stated fails: a provided waveform whose broadcast has leading
    dimension [1] with a batchsize of [-1] does not make the builder raise
    an assertion error; [torch.zeros] raises a runtime error first.  (And
    an fbank of three items asked for a batch of two fails inside [expand],
    with a runtime error as well.) *)
Lemma make_batch_waveform_mismatch_no_assertion :
  broadcast_mismatch (Some [1; 160000]) [-1; -1] (-1) /\
  snd (make_batch_for_text_to_audio "a dog" (Some [1; 160000]) None (-1))
  = Err (RuntimeError "torch.zeros: negative dimension") /\
  ~ raises_assertion
      (snd (make_batch_for_text_to_audio "a dog" (Some [1; 160000]) None (-1))) /\
  snd (make_batch_for_text_to_audio "a dog" None (Some [3; 1024; 64]) 2)
  = Err (RuntimeError "expand: size mismatch at a non-singleton dimension").
Proof.
  split; [|split; [|split]].
  - exists [1; 160000], [1; 160000], 1. repeat split; [lia].
  - reflexivity.
  - intros [stmt H]. discriminate H.
  - reflexivity.
Qed.

(** The assertion cannot fail for a batchsize that is not negative. *)
Lemma make_batch_no_assertion_nonneg
    (prompt : string) (wav mel : option (list Z)) (batchsize : Z) :
  0 <= batchsize ->
  ~ raises_assertion (snd (make_batch_for_text_to_audio prompt wav mel batchsize)).
Proof.
  intros Hb H. apply assertion_iff_fbank_mismatch in H
    as (a & t & n & _ & Ht & Hn & Hne).
  apply expand_size0 in Ht; [congruence|lia].
Qed.




(** Past the check a negative batchsize is what [torch.zeros] receives, and
    refuses; a valid batchsize goes through the same statements in
    silence. *)
Lemma make_batch_negative_batchsize
    (prompt : string) (wav : option (list Z)) (batchsize : Z) :
  batchsize < 0 ->
  make_batch_for_text_to_audio prompt wav None batchsize
  = ([batchsize_warning], Err (RuntimeError "torch.zeros: negative dimension")).
Proof.
  intros Hb.
  rewrite (surjective_pairing (make_batch_for_text_to_audio _ _ _ _)).
  rewrite make_batch_printed, make_batch_value. unfold batch_value.
  destruct (Z.ltb_spec batchsize 1); [|lia].
  unfold Torch.zeros at 1. simpl forallb.
  destruct (Z.leb_spec 0 batchsize); [lia|]. reflexivity.
Qed.

Lemma make_batch_valid_batchsize
    (prompt : string) (wav mel : option (list Z)) (batchsize : Z) :
  1 <= batchsize ->
  make_batch_for_text_to_audio prompt wav mel batchsize
  = ([], batch_value prompt wav mel batchsize).
Proof.
  intros Hb.
  rewrite (surjective_pairing (make_batch_for_text_to_audio _ _ _ _)).
  rewrite make_batch_printed, make_batch_value.
  destruct (Z.ltb_spec batchsize 1); [lia|reflexivity].
Qed.

(** *** Which inputs the builder accepts, and how it fails *)

Lemma expand_rev_nonneg (sizes : list Z) :
  Forall (fun s => 0 <= s) sizes ->
  forall t r, Torch.expand_rev t sizes = Ok r
              <-> broadcasts_rev t sizes = true /\ r = sizes.
Proof.
  induction 1 as [|s sizes Hs _ IH]; intros [|d t] r; cbn [Torch.expand_rev broadcasts_rev].
  - split; [intros E; injection E as <-; auto|intros [_ ->]; reflexivity].
  - split; [discriminate|intros [E _]; discriminate].
  - destruct (Z.ltb_spec s 0); [lia|].
    assert (E : Torch.expand_rev [] sizes = Ok sizes) by (now apply IH).
    rewrite E. cbn [rbind].
    split; [intros E'; injection E' as <-; auto|intros [_ ->]; reflexivity].
  - unfold Torch.expand_dim.
    destruct (Z.eqb_spec s (-1)); [lia|].
    destruct (Z.eqb_spec s d) as [<-|Hsd].
    + rewrite Z.eqb_refl. cbn [rbind orb andb].
      destruct (Torch.expand_rev t sizes) as [r'|] eqn:Er; cbn [rbind].
      * apply IH in Er as [Eb ->].
        split; [intros E'; injection E' as <-; auto|intros [_ ->]; reflexivity].
      * split; [discriminate|]. intros [Eb _].
        assert (E' : Torch.expand_rev t sizes = Ok sizes) by (now apply IH).
        congruence.
    + destruct (Z.eqb_spec d s); [congruence|]. cbn [orb].
      destruct (Z.leb_spec 0 s); [|lia]. rewrite andb_true_r.
      destruct (d =? 1); cbn [rbind andb].
      * destruct (Torch.expand_rev t sizes) as [r'|] eqn:Er; cbn [rbind].
        -- apply IH in Er as [Eb ->].
           split; [intros E'; injection E' as <-; auto|intros [_ ->]; reflexivity].
        -- split; [discriminate|]. intros [Eb _].
           assert (E' : Torch.expand_rev t sizes = Ok sizes) by (now apply IH).
           congruence.
      * split; [discriminate|intros [E _]; discriminate].
Qed.

Lemma expand_nonneg (t sizes r : list Z) :
  Forall (fun s => 0 <= s) sizes ->
  Torch.expand t sizes = Ok r <-> broadcasts_to t sizes = true /\ r = sizes.
Proof.
  intros Hs. unfold Torch.expand, broadcasts_to.
  pose proof (@expand_rev_nonneg (rev sizes)) as H.
  specialize (H (Forall_rev Hs) (rev t)).
  destruct (Torch.expand_rev (rev t) (rev sizes)) as [r'|] eqn:Er; cbn [rbind].
  - destruct (proj1 (H r') eq_refl) as [Hb ->]. rewrite rev_involutive.
    split; [intros E; injection E as <-; auto|intros [_ ->]; reflexivity].
  - split; [discriminate|]. intros [Hb _].
    specialize (H (rev sizes)). destruct H as [_ H].
    specialize (H (conj Hb eq_refl)). discriminate.
Qed.

Lemma expand_rev_length (sizes : list Z) :
  forall t r, Torch.expand_rev t sizes = Ok r ->
              (List.length t <= List.length sizes)%nat.
Proof.
  induction sizes as [|s sizes IH]; intros [|d t] r; cbn [Torch.expand_rev List.length];
    try discriminate; try lia.
  destruct (Torch.expand_dim d s); [|discriminate]. cbn [rbind].
  destruct (Torch.expand_rev t sizes) as [r'|] eqn:Er; [|discriminate].
  intros _. apply IH in Er. lia.
Qed.

(** The shapes that [expand(batchsize, -1)] accepts. *)
Lemma expand_waveform (w t : list Z) (batchsize : Z) :
  0 <= batchsize ->
  Torch.expand w [batchsize; -1] = Ok t
  <-> exists n, (w = [n] \/ w = [1; n] \/ w = [batchsize; n]) /\
                t = [batchsize; n].
Proof.
  intros Hb. split.
  - intros H.
    assert (Hlen : (List.length w <= 2)%nat).
    { unfold Torch.expand in H.
      destruct (Torch.expand_rev (rev w) (rev [batchsize; -1])) eqn:Er;
        [|discriminate].
      apply expand_rev_length in Er. now rewrite length_rev in Er. }
    destruct w as [|a [|b [|c w]]]; [| | |simpl in Hlen; lia];
      unfold Torch.expand in H; cbn [rev app Torch.expand_rev] in H.
    + discriminate.
    + cbn in H. destruct (Z.ltb_spec batchsize 0); [lia|].
      cbn in H. injection H as <-. eauto.
    + unfold Torch.expand_dim in H. cbn [Z.eqb rbind] in H.
      destruct (Z.eqb_spec batchsize (-1)); [lia|].
      destruct (Z.eqb_spec batchsize a) as [<-|].
      * cbn in H. injection H as <-. eauto.
      * destruct (Z.eqb_spec a 1) as [->|]; cbn [andb] in H; [|discriminate].
        destruct (Z.leb_spec 0 batchsize); [|lia].
        cbn in H. injection H as <-. eauto.
  - intros (n & [-> | [-> | ->]] & ->); unfold Torch.expand;
      cbn [rev app Torch.expand_rev]; unfold Torch.expand_dim; cbn [Z.eqb rbind].
    + destruct (Z.ltb_spec batchsize 0); [lia|]. reflexivity.
    + destruct (Z.eqb_spec batchsize (-1)); [lia|].
      destruct (Z.eqb_spec batchsize 1) as [->|]; [reflexivity|].
      destruct (Z.leb_spec 0 batchsize); [|lia]. reflexivity.
    + destruct (Z.eqb_spec batchsize (-1)); [lia|].
      rewrite Z.eqb_refl. reflexivity.
Qed.

Lemma zeros_nonneg (shape : list Z) :
  Forall (fun d => 0 <= d) shape -> Torch.zeros shape = Ok shape.
Proof.
  intros H. unfold Torch.zeros.
  replace (forallb (fun d => 0 <=? d) shape) with true; [reflexivity|].
  symmetry. apply forallb_forall. intros d Hd.
  rewrite Forall_forall in H. apply Z.leb_le. auto.
Qed.

Lemma checked_expand_fbank (a f : list Z) (batchsize : Z) (stmt : string) :
  0 <= batchsize ->
  checked_expand a [batchsize; 1024; 64] batchsize stmt = Ok f
  <-> broadcasts_to a [batchsize; 1024; 64] = true /\ f = [batchsize; 1024; 64].
Proof.
  intros Hb. unfold checked_expand, Torch.FloatTensor.
  assert (Hs : Forall (fun s => 0 <= s) [batchsize; 1024; 64])
    by (repeat constructor; lia).
  pose proof (fun r => @expand_nonneg a _ r Hs) as H.
  destruct (Torch.expand a [batchsize; 1024; 64]) as [t|] eqn:Et; cbn [rbind].
  - destruct (proj1 (H t) eq_refl) as [Hbr ->]. cbn [Torch.size0 rbind].
    rewrite Z.eqb_refl.
    split; [intros E; injection E as <-; auto|intros [_ ->]; reflexivity].
  - split; [discriminate|]. intros [Hbr _].
    destruct (H [batchsize; 1024; 64]) as [_ H']. specialize (H' (conj Hbr eq_refl)).
    discriminate.
Qed.

Lemma checked_expand_waveform (a t : list Z) (batchsize : Z) (stmt : string) :
  0 <= batchsize ->
  checked_expand a [batchsize; -1] batchsize stmt = Ok t
  <-> exists n, (a = [n] \/ a = [1; n] \/ a = [batchsize; n]) /\
                t = [batchsize; n].
Proof.
  intros Hb. rewrite <- (@expand_waveform a t batchsize Hb).
  unfold checked_expand, Torch.FloatTensor.
  destruct (Torch.expand a [batchsize; -1]) as [t'|] eqn:Et; cbn [rbind];
    [|split; discriminate].
  apply (expand_waveform a t' batchsize Hb) in Et as (n & _ & ->).
  cbn [Torch.size0 rbind]. rewrite Z.eqb_refl. reflexivity.
Qed.

Lemma batch_value_returns_iff
    (prompt : string) (wav mel : option (list Z)) (batchsize : Z) (b : Batch) :
  0 <= batchsize ->
  batch_value prompt wav mel batchsize = Ok b
  <-> match mel with
      | Some f => broadcasts_to f [batchsize; 1024; 64] = true
      | None => True
      end /\
      exists n,
        match wav with
        | Some w => w = [n] \/ w = [1; n] \/ w = [batchsize; n]
        | None => n = 160000
        end /\
        b = mkBatch [batchsize; 1024; 64] [batchsize; 1024; 512] tt
                    (list_times "" batchsize) [batchsize; n]
                    (list_times prompt batchsize).
Proof.
  intros Hb. unfold batch_value.
  assert (Hz : forall l, Forall (fun d => 0 <= d) l ->
                         Torch.zeros (batchsize :: l) = Ok (batchsize :: l))
    by (intros; apply zeros_nonneg; constructor; auto).
  rewrite (Hz [1024; 512]) by (repeat constructor; lia).
  split.
  - intros H.
    destruct (match mel with Some _ => _ | None => _ end) as [f|] eqn:Hf;
      [|discriminate].
    cbn [rbind] in H.
    destruct (match wav with Some _ => _ | None => _ end) as [t|] eqn:Ht;
      [|discriminate].
    cbn [rbind] in H. injection H as <-.
    assert (Hf' : match mel with
                  | Some f => broadcasts_to f [batchsize; 1024; 64] = true
                  | None => True
                  end /\ f = [batchsize; 1024; 64]).
    { destruct mel as [a|].
      - now apply checked_expand_fbank in Hf.
      - rewrite (Hz [1024; 64]) in Hf by (repeat constructor; lia).
        injection Hf as <-. auto. }
    destruct Hf' as [Hm ->]. split; [exact Hm|].
    destruct wav as [a|].
    + apply checked_expand_waveform in Ht as (n & Hn & ->); [|assumption].
      exists n. auto.
    + rewrite (Hz [160000]) in Ht by (repeat constructor; lia).
      injection Ht as <-. exists 160000. auto.
  - intros (Hm & n & Hn & ->).
    assert (Hf : match mel with
                 | Some a => checked_expand a [batchsize; 1024; 64] batchsize
                               "fbank.size(0) == batchsize"
                 | None => Torch.zeros [batchsize; 1024; 64]
                 end = Ok [batchsize; 1024; 64]).
    { destruct mel as [a|].
      - now apply checked_expand_fbank.
      - apply Hz. repeat constructor; lia. }
    rewrite Hf. cbn [rbind].
    assert (Hw : match wav with
                 | Some a => checked_expand a [batchsize; -1] batchsize
                               "waveform.size(0) == batchsize"
                 | None => Torch.zeros [batchsize; 160000]
                 end = Ok [batchsize; n]).
    { destruct wav as [a|].
      - apply checked_expand_waveform; eauto.
      - subst n. apply Hz. repeat constructor; lia. }
    rewrite Hw. reflexivity.
Qed.

(** X1.  For a batchsize that is not negative and fits the index type of
    the machine (it is below [2^63], so that [[text] * batchsize] does not
    overflow; memory is not modelled) the builder returns a batch exactly
    when a provided fbank can be broadcast to (batchsize, 1024, 64)
    -- each of its dimensions, counted from the last, is the size asked for
    or one -- and a provided waveform has shape (n), (1, n) or
    (batchsize, n).  The batch is then fully determined: fbank
    (batchsize, 1024, 64), stft (batchsize, 1024, 512), waveform
    (batchsize, n), with n = 160000 when none is provided, and batchsize
    copies of the text and of the empty file name. *)
Theorem make_batch_returns_iff
    (prompt : string) (wav mel : option (list Z)) (batchsize : Z) (b : Batch) :
  0 <= batchsize < 2 ^ 63 ->
  snd (make_batch_for_text_to_audio prompt wav mel batchsize) = Ok b
  <-> match mel with
      | Some f => broadcasts_to f [batchsize; 1024; 64] = true
      | None => True
      end /\
      exists n,
        match wav with
        | Some w => w = [n] \/ w = [1; n] \/ w = [batchsize; n]
        | None => n = 160000
        end /\
        b = mkBatch [batchsize; 1024; 64] [batchsize; 1024; 512] tt
                    (list_times "" batchsize) [batchsize; n]
                    (list_times prompt batchsize).
Proof.
  intros [Hb _]. rewrite make_batch_value.
  now apply batch_value_returns_iff.
Qed.

Lemma make_batch_returns_iff_witness :
  0 <= 2 < 2 ^ 63 /\
  snd (make_batch_for_text_to_audio "a dog" (Some [1; 163840])
                                    (Some [1; 1024; 64]) 2)
  = Ok (mkBatch [2; 1024; 64] [2; 1024; 512] tt [""; ""] [2; 163840]
                ["a dog"; "a dog"]).
Proof.
  assert (H : 0 <= 2 < 2 ^ 63) by (split; [lia|vm_compute; reflexivity]).
  split; [exact H|].
  apply (make_batch_returns_iff "a dog" (Some [1; 163840]) (Some [1; 1024; 64]) 2
           (mkBatch [2; 1024; 64] [2; 1024; 512] tt [""; ""] [2; 163840]
                    ["a dog"; "a dog"]) H).
  split; [reflexivity|]. exists 163840. split; [auto|reflexivity].
Defined.



Lemma batch_value_ok_nonneg
    (prompt : string) (wav mel : option (list Z)) (batchsize : Z) (b : Batch) :
  batch_value prompt wav mel batchsize = Ok b -> 0 <= batchsize.
Proof.
  unfold batch_value.
  destruct (match mel with Some _ => _ | None => _ end); [|discriminate].
  cbn [rbind].
  destruct (Torch.zeros [batchsize; 1024; 512]) eqn:Hs; [|discriminate].
  intros _. apply zeros_ok in Hs as [_ Hs]. now inversion Hs.
Qed.


(** *** The conditioning switch *)

(** X13.  The two switches are idempotent, the later one wins, and both
    commute with the assignment of the latent time size; switching a model
    that is in text mode to audio and back gives the same model again, and
    likewise for one in audio mode. *)
Theorem set_cond_composition {Rest CsmRest : Type}
    (ld : LatentDiffusion Rest CsmRest) (t : Z) :
  set_cond_text (set_cond_text ld) = set_cond_text ld /\
  set_cond_audio (set_cond_audio ld) = set_cond_audio ld /\
  set_cond_text (set_cond_audio ld) = set_cond_text ld /\
  set_cond_audio (set_cond_text ld) = set_cond_audio ld /\
  set_cond_text (set_latent_t_size t ld) = set_latent_t_size t (set_cond_text ld) /\
  set_cond_audio (set_latent_t_size t ld) = set_latent_t_size t (set_cond_audio ld) /\
  (cond_mode ld = text_mode -> set_cond_text (set_cond_audio ld) = ld) /\
  (cond_mode ld = audio_mode -> set_cond_audio (set_cond_text ld) = ld).
Proof.
  destruct ld as [k [m r] n rest].
  repeat split; intros H; injection H as -> ->; reflexivity.
Qed.

(** What the builder makes of a mel spectrogram given as fbank. *)
Lemma fbank_batch
    (prompt : string) (f : list Z) (batchsize : Z) (b : Batch) :
  snd (make_batch_for_text_to_audio prompt None (Some f) batchsize) = Ok b ->
  0 <= batchsize /\
  broadcasts_to f [batchsize; 1024; 64] = true /\
  b = mkBatch [batchsize; 1024; 64] [batchsize; 1024; 512] tt
              (list_times "" batchsize) [batchsize; 160000]
              (list_times prompt batchsize).
Proof.
  rewrite make_batch_value. intros H.
  pose proof (batch_value_ok_nonneg _ _ _ _ _ H) as Hb.
  apply batch_value_returns_iff in H as (Hf & n & -> & ->); auto.
Qed.

Lemma mel_frames (n c batchsize : Z) :
  broadcasts_to (Torch.unsqueeze0 [n; c]) [batchsize; 1024; 64] = true ->
  (n = 1024 \/ n = 1) /\ (c = 64 \/ c = 1).
Proof.
  unfold broadcasts_to, Torch.unsqueeze0. cbn [rev app broadcasts_rev].
  intros H. apply andb_prop in H as [Hc H]. apply andb_prop in H as [Hn _].
  apply orb_prop in Hc, Hn. rewrite !Z.eqb_eq in *. auto.
Qed.

(** ** Runs of the entry points *)

Section Runs.

Context {Obj Rest CsmRest Env : Type}.
Variable h_ext : forall c : ext Obj, Env -> Env * result (ext_ret c).
Variable h_meth :
  forall c : meth Obj, LatentDiffusion Rest CsmRest -> Env ->
    LatentDiffusion Rest CsmRest * Env * result (meth_ret c).

(** *** Sequencing and [finally] under [run]

    A bind runs its first part and, when that returns, the rest from the
    state it left; [finally] runs the closing part from wherever the body
    stopped, and the closing part's own exception wins. *)

Lemma run_bind {A B} (p : prog Obj Rest CsmRest A)
      (f : A -> prog Obj Rest CsmRest B) (w : World Rest CsmRest Env) :
  run h_ext h_meth (bind p f) w
  = let o := run h_ext h_meth p w in
    match value o with
    | Ok a =>
        let o' := run h_ext h_meth (f a) (final o) in
        mkOutcome (final o') (trace o ++ trace o') (value o')
    | Err e => mkOutcome (final o) (trace o) (Err e)
    end.
Proof.
  revert w.
  induction p as [a|e|s k IH|g k IH|c k IH|c k IH]; intros w; simpl.
  - now destruct (run h_ext h_meth (f a) w).
  - reflexivity.
  - rewrite IH. cbv zeta.
    now destruct (run h_ext h_meth k w) as [fw t [a|e]].
  - apply IH.
  - destruct (h_ext c (env w)) as [e r]. rewrite IH. cbv zeta.
    now destruct (run h_ext h_meth (k r) _) as [fw t [a|x]].
  - destruct (h_meth c (model w) (env w)) as [[m e] r]. rewrite IH. cbv zeta.
    now destruct (run h_ext h_meth (k r) _) as [fw t [a|x]].
Qed.

Lemma run_finally {A} (p : prog Obj Rest CsmRest A)
      (fin : prog Obj Rest CsmRest unit) (w : World Rest CsmRest Env) :
  run h_ext h_meth (finally p fin) w
  = let o := run h_ext h_meth p w in
    let o' := run h_ext h_meth fin (final o) in
    mkOutcome (final o') (trace o ++ trace o')
              (match value o' with
               | Ok _ => value o
               | Err e => Err e
               end).
Proof.
  revert w.
  induction p as [a|e|s k IH|g k IH|c k IH|c k IH]; intros w; simpl.
  - rewrite run_bind. cbv zeta.
    destruct (run h_ext h_meth fin w) as [fw t [[]|x]]; simpl;
      now rewrite ?app_nil_r.
  - rewrite run_bind. cbv zeta.
    destruct (run h_ext h_meth fin w) as [fw t [[]|x]]; simpl;
      now rewrite ?app_nil_r.
  - now rewrite IH.
  - apply IH.
  - destruct (h_ext c (env w)) as [e r]. now rewrite IH.
  - destruct (h_meth c (model w) (env w)) as [[m e] r]. now rewrite IH.
Qed.

(** The trace of a program that ran to the end of a [with] block closes
    with the block's exit call. *)
Lemma no_grad_trace {A} (body : prog Obj Rest CsmRest A)
      (w : World Rest CsmRest Env) (e : Env) :
  h_ext no_grad_enter (env w) = (e, Ok tt) ->
  trace (run h_ext h_meth (no_grad body) w)
  = EvExt no_grad_enter
      :: trace (run h_ext h_meth body (mkWorld (model w) e))
      ++ [EvExt no_grad_exit].
Proof.
  intros He. unfold no_grad, with_, call_ext. simpl. rewrite He. simpl.
  rewrite run_finally. cbv zeta. simpl. f_equal. f_equal.
  now destruct (h_ext no_grad_exit _) as [e' [[]|x]].
Qed.

Lemma of_io_make_batch (prompt : string) (wav mel : option (list Z)) (batchsize : Z) :
  of_io (Obj:=Obj) (Rest:=Rest) (CsmRest:=CsmRest)
        (make_batch_for_text_to_audio prompt wav mel batchsize)
  = if batchsize <? 1
    then Emit batchsize_warning
           (of_result (snd (make_batch_for_text_to_audio prompt wav mel batchsize)))
    else of_result (snd (make_batch_for_text_to_audio prompt wav mel batchsize)).
Proof.
  unfold of_io. rewrite make_batch_printed.
  now destruct (batchsize <? 1).
Qed.

Ltac run_cbn :=
  cbn [run bind finally of_result call_ext call_meth print assign with_
       no_grad autocast ema_scope seen trace final value model env
       load_config make_stft samples_in_mode].

Ltac split_head p :=
  lazymatch p with
  | bind ?q _ => split_head q
  | finally ?q _ => split_head q
  | of_result ?r => destruct r eqn:?
  | of_io (make_batch_for_text_to_audio ?a ?b ?c ?d) =>
      rewrite (of_io_make_batch a b c d);
      destruct (d <? 1) eqn:?;
      destruct (snd (make_batch_for_text_to_audio a b c d)) eqn:?
  | load_config ?c => destruct c as [[?|]|]
  | match ?x with _ => _ end => destruct x eqn:?
  end.

Ltac run_step :=
  match goal with
  | |- context [h_ext ?c ?e] => destruct (h_ext c e) as [? [?|?]] eqn:?
  | |- context [h_meth ?c ?m ?e] =>
      destruct (h_meth c m e) as [[? ?] [?|?]] eqn:?
  | |- context [run h_ext h_meth ?p _] => split_head p
  end.

Ltac run_framed H :=
  match goal with
  | |- context [h_ext ?c ?e] => destruct (h_ext c e) as [? [?|?]] eqn:?
  | |- context [h_meth ?c ?m ?e] =>
      let F := fresh "F" in
      pose proof (H c m e) as F;
      destruct (h_meth c m e) as [[? ?] [?|?]] eqn:?;
      cbn [fst snd] in F
  | |- context [run h_ext h_meth ?p _] => split_head p
  end.

Ltac trace_done :=
  run_cbn;
  repeat (apply Forall_cons || apply Forall_nil);
  cbn; auto; try discriminate; try (intros; reflexivity).

Ltac frame_done :=
  intros;
  repeat match goal with
         | F : ?f ?l = _ |- ?f ?l = _ => rewrite F; clear F
         end;
  reflexivity.

(** C1, as the code has it.  [text_to_audio] puts the model in audio mode
    before it samples when an audio path is supplied and in text mode when
    none is; [super_resolution_and_inpainting] and [style_transfer] put it
    in text mode whether or not a path is supplied.  For [style_transfer]
    that is the mode at its first call on the model, and at the sampler's
    calls, which come later, as long as the calls in between leave the
    mode alone. *)
Theorem conditioning_mode_at_sampling
    (prompt : string) (path : option string) (seed : Py.num)
    (ddim_steps : Z) (duration : Py.num) (batchsize : Z)
    (guidance_scale : Py.num) (n_candidates : Z) (config : option config_arg)
    (transfer_strength : Py.num) (duration' : option Py.num)
    (time_mask freq_mask : Py.num * Py.num)
    (w : World Rest CsmRest Env) :
  samples_in_mode
    (match path with Some _ => audio_mode | None => text_mode end)
    (trace (run h_ext h_meth
              (text_to_audio prompt path seed ddim_steps duration batchsize
                             guidance_scale n_candidates config) w)) /\
  samples_in_mode text_mode
    (trace (run h_ext h_meth
              (super_resolution_and_inpainting
                 prompt path seed ddim_steps duration' batchsize
                 guidance_scale n_candidates time_mask freq_mask config) w)) /\
  Forall (fun ev =>
            match ev with
            | EvMeth (encode_first_stage _) self => cond_mode self = text_mode
            | _ => True
            end)
         (trace (run h_ext h_meth
                   (style_transfer prompt path transfer_strength seed duration
                                   batchsize guidance_scale ddim_steps config) w)) /\
  (preserves h_meth (@cond_mode Rest CsmRest) ->
   samples_in_mode text_mode
     (trace (run h_ext h_meth
               (style_transfer prompt path transfer_strength seed duration
                               batchsize guidance_scale ddim_steps config) w))).
Proof.
  split; [|split; [|split]].
  - unfold text_to_audio. repeat (run_cbn; run_step); trace_done.
  - unfold super_resolution_and_inpainting.
    repeat (run_cbn; run_step); trace_done.
  - unfold style_transfer. repeat (run_cbn; run_step); trace_done.
  - intros Hframe. unfold style_transfer.
    repeat (run_cbn; run_framed Hframe); trace_done; frame_done.
Qed.

(** C5.  In [style_transfer], with a guidance scale equal to [1.0] the
    unconditional conditioning is never asked for and [decode] receives
    [None]; with any other guidance scale [decode] receives a computed
    conditioning, and whenever the run gets as far as the learned
    conditioning it has asked for the unconditional one, for [batchsize]
    items. *)
Theorem style_transfer_unconditional_conditioning
    (prompt : string) (path : option string)
    (transfer_strength seed duration : Py.num) (batchsize : Z)
    (guidance_scale : Py.num) (ddim_steps : Z) (config : option config_arg)
    (w : World Rest CsmRest Env) :
  let t := trace (run h_ext h_meth
                    (style_transfer prompt path transfer_strength seed duration
                                    batchsize guidance_scale ddim_steps config) w) in
  (Py.eq_one guidance_scale = true ->
   called (fun c => match c with
                    | get_unconditional_condition _ => true
                    | _ => false
                    end) t = false /\
   Forall (fun ev => match ev with
                     | EvMeth (decode _ _ _ _ _ uc) _ => uc = None
                     | _ => True
                     end) t) /\
  (Py.eq_one guidance_scale = false ->
   (called is_get_learned_conditioning t = true ->
    called (is_get_unconditional_condition batchsize) t = true) /\
   Forall (fun ev => match ev with
                     | EvMeth (decode _ _ _ _ _ uc) _ => uc <> None
                     | _ => True
                     end) t).
Proof.
  unfold Py.ne_one in *. cbv zeta. unfold style_transfer, Py.ne_one.
  split; intros Hg; rewrite Hg; cbn [negb]; split.
  - repeat (run_cbn; run_step); run_cbn; reflexivity.
  - repeat (run_cbn; run_step); trace_done.
  - repeat (run_cbn; run_step); run_cbn; cbn; rewrite ?Z.eqb_refl;
      auto; discriminate.
  - repeat (run_cbn; run_step); trace_done.
Qed.

(** C6, as the code has it.  In [style_transfer], for a transfer strength
    and a number of steps that are not negative, the timestep handed to
    the sampler's [stochastic_encode] (once per batch item) and to its
    [decode] is [floor(transfer_strength * ddim_steps)], the product being
    Python's.  A transfer strength of [0] gives [0] and one of [1] gives
    [ddim_steps], for every number of steps; written as the floats [0.0]
    and [1.0] they do so for the numbers of steps that a double holds
    exactly, those below [2^53], and not beyond. *)
Theorem style_transfer_start_timestep
    (prompt : string) (path : option string)
    (transfer_strength seed duration : Py.num) (batchsize : Z)
    (guidance_scale : Py.num) (ddim_steps : Z) (config : option config_arg)
    (w : World Rest CsmRest Env) :
  Py.nonneg transfer_strength = true -> 0 <= ddim_steps ->
  t_enc_of transfer_strength ddim_steps
  = floor_of_strength_steps transfer_strength ddim_steps /\
  Forall (fun ev =>
            match ev with
            | EvMeth (stochastic_encode _ _ t) _ =>
                exists v,
                  floor_of_strength_steps transfer_strength ddim_steps = Ok v /\
                  t = list_times v batchsize
            | EvMeth (decode _ _ _ t_start _ _) _ =>
                floor_of_strength_steps transfer_strength ddim_steps = Ok t_start
            | _ => True
            end)
         (trace (run h_ext h_meth
                   (style_transfer prompt path transfer_strength seed duration
                                   batchsize guidance_scale ddim_steps config) w)) /\
  t_enc_of (Py.Int 0) ddim_steps = Ok 0 /\
  t_enc_of (Py.Int 1) ddim_steps = Ok ddim_steps /\
  (ddim_steps < 2 ^ 53 ->
   t_enc_of (Py.Float Py.f0_0) ddim_steps = Ok 0 /\
   t_enc_of (Py.Float Py.f1_0) ddim_steps = Ok ddim_steps).
Proof.
  intros Hts Hsteps.
  assert (Hfloor : t_enc_of transfer_strength ddim_steps
                   = floor_of_strength_steps transfer_strength ddim_steps).
  { apply int_mul_floor; [assumption|]. now apply Z.leb_le. }
  split; [exact Hfloor|]. split; [|split; [|split; [|split]]].
  - rewrite <- Hfloor. unfold style_transfer.
    repeat (run_cbn; run_step); trace_done.
    all: intros; unfold Torch.tensor_of_ints in *;
      repeat match goal with
             | H : (if ?b then _ else _) = Ok _ |- _ =>
                 destruct b; [injection H as <-|discriminate]
             end; eauto.
  - reflexivity.
  - unfold t_enc_of, Py.mul. cbn [rbind Py.int]. f_equal. lia.
  - intros. apply t_enc_of_zero_float. lia.
  - intros. apply t_enc_of_one_float. lia.
Qed.

(** C9, as the code has it.  [text_to_audio] and [style_transfer] set the
    model's [latent_t_size] to [duration_to_latent_t_size(duration)] before
    their first call on the model.  [super_resolution_and_inpainting] never
    assigns it: its only call on the model, [generate_sample_masked], finds
    the value the model came with, and so does the caller afterwards when
    the collaborators leave it alone.  The duration sets the target length
    of the mel spectrogram and is also passed on to
    [generate_sample_masked]. *)
Theorem latent_t_size_assignments
    (prompt : string) (path : option string) (seed : Py.num)
    (ddim_steps : Z) (duration : Py.num) (batchsize : Z)
    (guidance_scale : Py.num) (n_candidates : Z) (config : option config_arg)
    (transfer_strength : Py.num) (duration' : option Py.num)
    (time_mask freq_mask : Py.num * Py.num)
    (w : World Rest CsmRest Env) :
  Forall (fun ev =>
            match ev with
            | EvMeth (generate_sample _ _ _ _ _) self =>
                duration_to_latent_t_size duration = Ok (latent_t_size self)
            | _ => True
            end)
         (trace (run h_ext h_meth
                   (text_to_audio prompt path seed ddim_steps duration batchsize
                                  guidance_scale n_candidates config) w)) /\
  Forall (fun ev =>
            match ev with
            | EvMeth (encode_first_stage _) self =>
                duration_to_latent_t_size duration = Ok (latent_t_size self)
            | _ => True
            end)
         (trace (run h_ext h_meth
                   (style_transfer prompt path transfer_strength seed duration
                                   batchsize guidance_scale ddim_steps config) w)) /\
  let o := run h_ext h_meth
             (super_resolution_and_inpainting
                prompt path seed ddim_steps duration' batchsize
                guidance_scale n_candidates time_mask freq_mask config) w in
  Forall (fun ev =>
            match ev with
            | EvMeth c self =>
                latent_t_size self = latent_t_size (model w) /\
                exists batchs,
                  c = generate_sample_masked batchs guidance_scale ddim_steps
                        n_candidates duration' time_mask freq_mask
            | EvExt (wav_to_fbank _ target_length _) =>
                rbind (mul_float duration' Py.f102_4) Py.int = Ok target_length
            | _ => True
            end) (trace o) /\
  (preserves h_meth (@latent_t_size Rest CsmRest) ->
   latent_t_size (model (final o)) = latent_t_size (model w)).
Proof.
  split; [|split; [|split]].
  - unfold text_to_audio. repeat (run_cbn; run_step); trace_done.
  - unfold style_transfer. repeat (run_cbn; run_step); trace_done.
  - unfold super_resolution_and_inpainting.
    repeat (run_cbn; run_step); trace_done;
      try (split; [reflexivity|eauto]);
      try match goal with
          | H : ?x = Ok _, H' : Py.int _ = Ok _ |- _ => rewrite H; exact H'
          end.
  - intros Hframe. unfold super_resolution_and_inpainting.
    repeat (run_cbn; run_framed Hframe); run_cbn; frame_done.
Qed.

(** C10.  [text_to_audio] never looks at its [config] argument: with any
    two values for it, and the same other arguments, collaborators and
    initial state, the run is the same -- the same calls, the same result
    and the same final model and surroundings. *)
Theorem text_to_audio_ignores_config
    (prompt : string) (path : option string) (seed : Py.num)
    (ddim_steps : Z) (duration : Py.num) (batchsize : Z)
    (guidance_scale : Py.num) (n_candidates : Z)
    (config1 config2 : option config_arg)
    (w : World Rest CsmRest Env) :
  run h_ext h_meth
      (text_to_audio prompt path seed ddim_steps duration batchsize
                     guidance_scale n_candidates config1) w
  = run h_ext h_meth
        (text_to_audio prompt path seed ddim_steps duration batchsize
                       guidance_scale n_candidates config2) w.
Proof. reflexivity. Qed.

(** C8.  [set_cond_audio] and [set_cond_text] write the conditioning key
    and the embed mode of the conditioning stage -- ["waveform"] and
    ["audio"], respectively ["text"] and ["text"] -- and nothing else: the
    other attributes of the model and of its conditioning stage, and the
    state of the collaborators, stay as they are.  They make no call and
    cannot raise. *)
Theorem set_cond_frame (w : World Rest CsmRest Env) :
  let ld := model w in
  let audio := set_cond_audio ld in
  let text := set_cond_text ld in
  (cond_stage_key audio = "waveform" /\
   embed_mode (cond_stage_model audio) = "audio" /\
   csm_rest (cond_stage_model audio) = csm_rest (cond_stage_model ld) /\
   latent_t_size audio = latent_t_size ld /\
   ld_rest audio = ld_rest ld) /\
  (cond_stage_key text = "text" /\
   embed_mode (cond_stage_model text) = "text" /\
   csm_rest (cond_stage_model text) = csm_rest (cond_stage_model ld) /\
   latent_t_size text = latent_t_size ld /\
   ld_rest text = ld_rest ld) /\
  run h_ext h_meth (assign (@set_cond_audio Rest CsmRest)) w
  = mkOutcome (mkWorld audio (env w)) [] (Ok tt) /\
  run h_ext h_meth (assign (@set_cond_text Rest CsmRest)) w
  = mkOutcome (mkWorld text (env w)) [] (Ok tt).
Proof. cbv zeta. repeat split. Qed.

(** *** Further properties of the runs *)

(** Keeps one copy of the trace in a goal that mentions it several times,
    while the run is taken apart. *)
Ltac fold_trace Q :=
  match goal with
  | |- context [trace ?o] =>
      let t := fresh "t" in
      set (t := trace o); pattern t;
      match goal with
      | |- ?P t => set (Q := P); subst t
      end
  end.

Ltac fold_run Q :=
  match goal with
  | |- context [run h_ext h_meth ?p ?w] =>
      let o := fresh "o" in
      set (o := run h_ext h_meth p w); pattern o;
      match goal with
      | |- ?P o => set (Q := P); subst o
      end
  end.

Ltac target_done :=
  unfold target_length;
  match goal with
  | H : ?x = Ok _, H' : Py.int _ = Ok _ |- _ => rewrite H; exact H'
  end.

(** X3.  Whatever the collaborators do, [text_to_audio] calls nothing but
    [seed_everything], [read_wav_file], [torch.no_grad] and
    [generate_sample], and prints nothing but the builder's warning and one
    of its two messages.  The seed is [int(seed)]; the audio file is read
    only when a path is supplied, from that path, with a segment length of
    [int(duration * 102.4) * 160]; [generate_sample] receives one batch,
    the one the builder returns for the text and for what [read_wav_file]
    returned (for the text alone without a path), and the guidance scale,
    the number of steps, the number of candidates and the duration
    unchanged. *)
Theorem text_to_audio_calls
    (prompt : string) (path : option string) (seed : Py.num)
    (ddim_steps : Z) (duration : Py.num) (batchsize : Z)
    (guidance_scale : Py.num) (n_candidates : Z) (config : option config_arg)
    (w : World Rest CsmRest Env) :
  Forall (fun ev =>
            match ev with
            | EvPrint s =>
                s = batchsize_warning \/
                s = ("Generate audio that has similar content as " ++ str_of path)%string \/
                s = ("Generate audio using text " ++ prompt)%string
            | EvExt (seed_everything s) => Py.int seed = Ok s
            | EvExt (read_wav_file f n) =>
                path = Some f /\
                exists T, target_length duration = Ok T /\ n = T * 160
            | EvExt no_grad_enter | EvExt no_grad_exit => True
            | EvExt _ => False
            | EvMeth (generate_sample batchs gs steps n d) _ =>
                gs = guidance_scale /\ steps = ddim_steps /\
                n = n_candidates /\ d = duration /\
                exists b wav,
                  batchs = [b] /\
                  match path with
                  | Some f =>
                      exists a n e,
                        wav = Some a /\
                        snd (h_ext (read_wav_file f n) e) = Ok a
                  | None => wav = None
                  end /\
                  snd (make_batch_for_text_to_audio prompt wav None batchsize)
                  = Ok b
            | EvMeth _ _ => False
            end)
         (trace (run h_ext h_meth
                   (text_to_audio prompt path seed ddim_steps duration batchsize
                                  guidance_scale n_candidates config) w)).
Proof.
  unfold text_to_audio. repeat (run_cbn; run_step); trace_done.
  all: try (split; [reflexivity|eexists; split; [target_done|reflexivity]]).
  all: try (repeat split; eexists; eexists; split; [reflexivity|];
            split; [|eassumption];
            match goal with
            | H : h_ext (read_wav_file ?f ?n) ?e = _ |- _ =>
                eexists _, n, e; split; [reflexivity|]; rewrite H; reflexivity
            end).
  all: try (repeat split; eexists; exists None; split; [reflexivity|];
            split; [reflexivity|eassumption]).
Qed.

(** X4.  Seeding comes first.  In [text_to_audio] and
    [super_resolution_and_inpainting] the first call is
    [seed_everything(int(seed))], and when [int(seed)] raises nothing has
    been called or changed.  In [style_transfer] no call on the model
    comes before the seeding, and the seed is [int(seed)]. *)
Theorem seed_everything_comes_first
    (prompt : string) (path : option string) (seed : Py.num)
    (ddim_steps : Z) (duration : Py.num) (batchsize : Z)
    (guidance_scale : Py.num) (n_candidates : Z) (config : option config_arg)
    (transfer_strength : Py.num) (duration' : option Py.num)
    (time_mask freq_mask : Py.num * Py.num)
    (w : World Rest CsmRest Env) :
  let seeded (o : Outcome Obj Rest CsmRest Env Obj) :=
    match Py.int seed with
    | Ok s => exists t, trace o = EvExt (seed_everything s) :: t
    | Err e => o = mkOutcome w [] (Err e)
    end in
  seeded (run h_ext h_meth
            (text_to_audio prompt path seed ddim_steps duration batchsize
                           guidance_scale n_candidates config) w) /\
  seeded (run h_ext h_meth
            (super_resolution_and_inpainting
               prompt path seed ddim_steps duration' batchsize
               guidance_scale n_candidates time_mask freq_mask config) w) /\
  let t := trace (run h_ext h_meth
                    (style_transfer prompt path transfer_strength seed duration
                                    batchsize guidance_scale ddim_steps config) w) in
  precedes is_seed_everything on_model t = true /\
  Forall (fun ev => match ev with
                    | EvExt (seed_everything s) => Py.int seed = Ok s
                    | _ => True
                    end) t.
Proof.
  cbv zeta. split; [|split].
  - unfold text_to_audio. run_cbn. destruct (Py.int seed) as [s|e]; run_cbn;
      [|reflexivity].
    destruct (h_ext (seed_everything s) (env w)) as [e r]. run_cbn. eauto.
  - unfold super_resolution_and_inpainting. run_cbn.
    destruct (Py.int seed) as [s|e]; run_cbn; [|reflexivity].
    destruct (h_ext (seed_everything s) (env w)) as [e r]. run_cbn. eauto.
  - unfold style_transfer. repeat (run_cbn; run_step); run_cbn;
      (split; [reflexivity|trace_done]).
Qed.

Ltac exits_done :=
  cbn [called called_ext existsb orb is_sampling_entry is_autocast_enter
       is_ema_scope_enter in_ema_scope];
  intros H; first [discriminate H | clear H; reflexivity].

(** X5.  Every context that was entered is left, innermost first, and
    also when the body raises.  Once [text_to_audio] or
    [super_resolution_and_inpainting] has made its sampling call, the last
    call of the run is the exit of [torch.no_grad].  In [style_transfer],
    once [autocast] has been asked for the run ends with the exit of
    [no_grad]; once [ema_scope] has been asked for it ends with the exits
    of [autocast] and [no_grad]; and once a call of the block's body has
    been made it ends with the exits of [ema_scope], [autocast] and
    [no_grad], in this order. *)
Theorem contexts_are_closed
    (prompt : string) (path : option string) (seed : Py.num)
    (ddim_steps : Z) (duration : Py.num) (batchsize : Z)
    (guidance_scale : Py.num) (n_candidates : Z) (config : option config_arg)
    (transfer_strength : Py.num) (duration' : option Py.num)
    (time_mask freq_mask : Py.num * Py.num)
    (w : World Rest CsmRest Env) :
  let t1 := trace (run h_ext h_meth
                     (text_to_audio prompt path seed ddim_steps duration
                                    batchsize guidance_scale n_candidates config) w) in
  let t2 := trace (run h_ext h_meth
                     (super_resolution_and_inpainting
                        prompt path seed ddim_steps duration' batchsize
                        guidance_scale n_candidates time_mask freq_mask config) w) in
  let t3 := trace (run h_ext h_meth
                     (style_transfer prompt path transfer_strength seed duration
                                     batchsize guidance_scale ddim_steps config) w) in
  (called is_sampling_entry t1 = true -> last_exits 1 t1 = ["no_grad"]) /\
  (called is_sampling_entry t2 = true -> last_exits 1 t2 = ["no_grad"]) /\
  (called_ext is_autocast_enter t3 = true -> last_exits 1 t3 = ["no_grad"]) /\
  (called is_ema_scope_enter t3 = true ->
   last_exits 2 t3 = ["autocast"; "no_grad"]) /\
  (called in_ema_scope t3 = true ->
   last_exits 3 t3 = ["ema_scope"; "autocast"; "no_grad"]).
Proof.
  cbv zeta. split; [|split].
  - unfold text_to_audio. fold_trace Q.
    repeat (run_cbn; run_step); run_cbn; subst Q; exits_done.
  - unfold super_resolution_and_inpainting. fold_trace Q.
    repeat (run_cbn; run_step); run_cbn; subst Q; exits_done.
  - unfold style_transfer. fold_trace Q.
    repeat (run_cbn; run_step); run_cbn; subst Q; cbv beta;
      (split; [|split]); exits_done.
Qed.


(** X7.  What [style_transfer] passes on.  The mel spectrogram is asked
    for the given path with [int(duration * 102.4)] frames and gets two
    leading dimensions of size one before it is repeated [batchsize] times;
    the schedule is made for [ddim_steps] steps with [ddim_eta = 1.0];
    [autocast] is entered for ["cuda"] whatever the device; the
    unconditional conditioning is asked for [batchsize] items and the
    learned one for [batchsize] copies of the text; [stochastic_encode]
    gets [batchsize] copies of [int(transfer_strength * ddim_steps)], each
    within 64 bits, and [decode] the same number and the guidance scale.
    The schedule, the encoding and the decoding use the same sampler.
    [style_transfer] prints nothing, never reads the audio itself and
    never calls [generate_sample]. *)
Theorem style_transfer_calls
    (prompt : string) (path : option string)
    (transfer_strength seed duration : Py.num) (batchsize : Z)
    (guidance_scale : Py.num) (ddim_steps : Z) (config : option config_arg)
    (w : World Rest CsmRest Env) :
  let t := trace (run h_ext h_meth
                    (style_transfer prompt path transfer_strength seed duration
                                    batchsize guidance_scale ddim_steps config) w) in
  Forall (fun ev =>
            match ev with
            | EvExt (wav_to_fbank p n _) =>
                p = path /\ target_length duration = Ok n
            | EvExt (einops_repeat x pattern b) =>
                pattern = "1 ... -> b ..." /\ b = batchsize /\
                exists mel, x = 1 :: 1 :: mel
            | EvExt (autocast_enter device_type) => device_type = "cuda"
            | EvExt (read_wav_file _ _) => False
            | EvMeth (make_schedule _ n eta verbose) _ =>
                n = ddim_steps /\ eta = Py.f1_0 /\ verbose = false
            | EvMeth (get_unconditional_condition b) _ => b = batchsize
            | EvMeth (get_learned_conditioning c) _ =>
                c = list_times prompt batchsize
            | EvMeth (stochastic_encode _ _ ts) _ =>
                forallb Torch.int64 ts = true /\
                exists v, t_enc_of transfer_strength ddim_steps = Ok v /\
                          ts = list_times v batchsize
            | EvMeth (decode _ _ _ t_start gs _) _ =>
                t_enc_of transfer_strength ddim_steps = Ok t_start /\
                gs = guidance_scale
            | EvMeth (generate_sample _ _ _ _ _) _
            | EvMeth (generate_sample_masked _ _ _ _ _ _ _) _ => False
            | EvPrint _ => False
            | _ => True
            end) t /\
  match samplers t with
  | [] => True
  | s :: rest => Forall (eq s) rest
  end.
Proof.
  cbv zeta. unfold style_transfer. fold_trace Q.
  repeat (run_cbn; run_step); run_cbn; subst Q; cbv beta;
    (split; [trace_done|cbn; auto]).
  all: try (split; [reflexivity|target_done]).
  all: try (repeat split; eexists; reflexivity).
  all: try (unfold Torch.tensor_of_ints in *;
            repeat match goal with
                   | H : (if ?b then _ else _) = Ok _ |- _ =>
                       destruct b eqn:?; [injection H as <-|discriminate]
                   end; eauto).
Qed.


(** Steps through a run whose collaborators hand the model back as they
    found it. *)
Ltac run_same H :=
  match goal with
  | |- context [h_ext ?c ?e] => destruct (h_ext c e) as [? [?|?]]
  | |- context [h_meth ?c ?m ?e] =>
      let F := fresh "F" in
      let l := fresh "l" in
      pose proof (H c m e) as F;
      destruct (h_meth c m e) as [[l ?] [?|?]];
      cbn [fst snd] in F; subst l
  | |- context [run h_ext h_meth ?p _] => split_head p
  end.

(** X8.  With collaborators that hand the model back as they found it,
    [style_transfer] leaves the model as it was, or switched to text mode,
    or switched to text mode with the latent time size of the duration --
    the last whenever it got as far as a call on the model; so a run that
    fails in between leaves the model half updated.
    [super_resolution_and_inpainting] leaves the model as it was or
    switched to text mode, the latter whenever [torch.no_grad] was asked
    for. *)
Theorem style_transfer_model_update
    (prompt : string) (path : option string)
    (transfer_strength seed duration : Py.num) (batchsize : Z)
    (guidance_scale : Py.num) (ddim_steps n_candidates : Z)
    (duration' : option Py.num) (time_mask freq_mask : Py.num * Py.num)
    (config : option config_arg)
    (w : World Rest CsmRest Env) :
  preserves h_meth (fun m : LatentDiffusion Rest CsmRest => m) ->
  let o1 := run h_ext h_meth
              (style_transfer prompt path transfer_strength seed duration
                              batchsize guidance_scale ddim_steps config) w in
  let o2 := run h_ext h_meth
              (super_resolution_and_inpainting
                 prompt path seed ddim_steps duration' batchsize
                 guidance_scale n_candidates time_mask freq_mask config) w in
  (model (final o1) = model w \/
   model (final o1) = set_cond_text (model w) \/
   exists t, duration_to_latent_t_size duration = Ok t /\
             model (final o1) = set_latent_t_size t (set_cond_text (model w))) /\
  (called any_call (trace o1) = true ->
   exists t, duration_to_latent_t_size duration = Ok t /\
             model (final o1) = set_latent_t_size t (set_cond_text (model w))) /\
  (model (final o2) = model w \/ model (final o2) = set_cond_text (model w)) /\
  (called_ext is_no_grad_enter (trace o2) = true ->
   model (final o2) = set_cond_text (model w)).
Proof.
  intros Hframe. cbv zeta. rewrite <- !and_assoc. rewrite and_assoc. split.
  - unfold style_transfer. fold_run Q.
    repeat (run_cbn; run_same Hframe); run_cbn; subst Q; cbv beta;
      cbn [called existsb orb any_call trace model final];
      (split; [eauto|intros Hc; try discriminate Hc; eauto]).
  - unfold super_resolution_and_inpainting. fold_run Q.
    repeat (run_cbn; run_same Hframe); run_cbn; subst Q; cbv beta;
      cbn [called_ext existsb orb is_no_grad_enter trace model final];
      (split; [eauto|intros Hc; try discriminate Hc; eauto]).
Qed.


Ltac plan_done :=
  cbn [stages flat_map stage app trace value];
  (eexists; split; [reflexivity|intros v E; first [discriminate E|reflexivity]]).

(** X9.  The calls of each entry point come in the order of the source:
    in every run the calls made (prints and context managers apart) are a
    beginning of the entry point's list of calls, and in a run that returns
    they are the whole list. *)
Theorem entry_points_follow_plan
    (prompt : string) (path : option string) (seed : Py.num)
    (ddim_steps : Z) (duration : Py.num) (batchsize : Z)
    (guidance_scale : Py.num) (n_candidates : Z) (config : option config_arg)
    (transfer_strength : Py.num) (duration' : option Py.num)
    (time_mask freq_mask : Py.num * Py.num)
    (w : World Rest CsmRest Env) :
  let follows (plan : list string) (o : Outcome Obj Rest CsmRest Env Obj) :=
    exists rest, plan = stages (trace o) ++ rest /\
                 (forall v, value o = Ok v -> rest = []) in
  follows (text_to_audio_plan path)
          (run h_ext h_meth
               (text_to_audio prompt path seed ddim_steps duration batchsize
                              guidance_scale n_candidates config) w) /\
  follows (style_transfer_plan config guidance_scale)
          (run h_ext h_meth
               (style_transfer prompt path transfer_strength seed duration
                               batchsize guidance_scale ddim_steps config) w) /\
  follows (super_resolution_plan config)
          (run h_ext h_meth
               (super_resolution_and_inpainting
                  prompt path seed ddim_steps duration' batchsize
                  guidance_scale n_candidates time_mask freq_mask config) w).
Proof.
  cbv zeta. split; [|split].
  - unfold text_to_audio, text_to_audio_plan. destruct path as [p|];
      fold_run Q; repeat (run_cbn; run_step); run_cbn; subst Q; plan_done.
  - unfold style_transfer, style_transfer_plan, load_config_plan, stft_plan.
    destruct (Py.ne_one guidance_scale); destruct config as [[c|]|];
      cbn [app]; fold_run Q; repeat (run_cbn; run_step); run_cbn; subst Q;
      plan_done.
  - unfold super_resolution_and_inpainting, super_resolution_plan,
      load_config_plan, stft_plan.
    destruct config as [[c|]|];
      cbn [app]; fold_run Q; repeat (run_cbn; run_step); run_cbn; subst Q;
      plan_done.
Qed.

(** X10.  A [config] that is neither [None] nor a string is refused with
    an assertion error before any file is opened and before any call on
    the model.  [style_transfer] has by then asked for CUDA and switched
    the model to text mode; [super_resolution_and_inpainting] has set the
    seed and left the model alone. *)
Theorem config_must_be_a_path
    (prompt : string) (path : option string)
    (transfer_strength seed duration : Py.num) (batchsize : Z)
    (guidance_scale : Py.num) (ddim_steps n_candidates : Z)
    (duration' : option Py.num) (time_mask freq_mask : Py.num * Py.num)
    (w : World Rest CsmRest Env) :
  let refused (o : Outcome Obj Rest CsmRest Env Obj) :=
    value o = Err (AssertionError "type(config) is str") in
  let o1 := run h_ext h_meth
              (style_transfer prompt path transfer_strength seed duration
                              batchsize guidance_scale ddim_steps
                              (Some ConfigOther)) w in
  let o2 := run h_ext h_meth
              (super_resolution_and_inpainting
                 prompt path seed ddim_steps duration' batchsize
                 guidance_scale n_candidates time_mask freq_mask
                 (Some ConfigOther)) w in
  (trace o1 = [EvExt cuda_is_available] /\
   match snd (h_ext cuda_is_available (env w)) with
   | Ok _ => refused o1 /\ model (final o1) = set_cond_text (model w)
   | Err e => value o1 = Err e /\ model (final o1) = model w
   end) /\
  (called_ext is_file_access (trace o2) = false /\
   called any_call (trace o2) = false /\
   model (final o2) = model w /\
   (exists e, value o2 = Err e) /\
   (forall s, Py.int seed = Ok s ->
              snd (h_ext (seed_everything s) (env w)) = Ok tt -> refused o2)).
Proof.
  cbv zeta. split.
  - unfold style_transfer. run_cbn.
    destruct (h_ext cuda_is_available (env w)) as [e [b|x]]; run_cbn;
      cbn [snd]; auto.
  - unfold super_resolution_and_inpainting. run_cbn.
    destruct (Py.int seed) as [s|x]; run_cbn.
    + destruct (h_ext (seed_everything s) (env w)) as [e [[]|x]] eqn:He;
        run_cbn; cbn; repeat split; eauto;
        intros s' E; injection E as <-; rewrite He; cbn;
        intros; try discriminate; reflexivity.
    + cbn. repeat split; eauto. intros; discriminate.
Qed.

(** X11.  With [duration = None], its default,
    [super_resolution_and_inpainting] always raises: it never asks for the
    mel spectrogram, makes no call on the model and leaves the model as it
    was. *)
Theorem super_resolution_needs_duration
    (prompt : string) (path : option string) (seed : Py.num)
    (ddim_steps : Z) (batchsize : Z)
    (guidance_scale : Py.num) (n_candidates : Z)
    (time_mask freq_mask : Py.num * Py.num) (config : option config_arg)
    (w : World Rest CsmRest Env) :
  let o := run h_ext h_meth
             (super_resolution_and_inpainting
                prompt path seed ddim_steps None batchsize
                guidance_scale n_candidates time_mask freq_mask config) w in
  (exists e, value o = Err e) /\
  called any_call (trace o) = false /\
  called_ext is_wav_to_fbank (trace o) = false /\
  model (final o) = model w.
Proof.
  cbv zeta. unfold super_resolution_and_inpainting. cbn [mul_float].
  fold_run Q.
  repeat (run_cbn; run_step); run_cbn; subst Q; cbn; repeat split; eauto;
    discriminate.
Qed.


(** X12.  The batch that [super_resolution_and_inpainting] hands to
    [generate_sample_masked] has the fixed shapes of the builder, fbank
    (batchsize, 1024, 64) among them, for a batchsize that is not negative.
    Hence, when [wav_to_fbank] returns the [target_length] frames of 64
    bins it is asked for, the model is reached only if
    [int(duration * 102.4)] is 1024 or 1. *)
Theorem super_resolution_batch
    (prompt : string) (path : option string) (seed : Py.num)
    (ddim_steps : Z) (duration' : option Py.num) (batchsize : Z)
    (guidance_scale : Py.num) (n_candidates : Z)
    (time_mask freq_mask : Py.num * Py.num) (config : option config_arg)
    (w : World Rest CsmRest Env) :
  let t := trace (run h_ext h_meth
                    (super_resolution_and_inpainting
                       prompt path seed ddim_steps duration' batchsize
                       guidance_scale n_candidates time_mask freq_mask config) w) in
  Forall (fun ev =>
            match ev with
            | EvMeth (generate_sample_masked batchs _ _ _ _ _ _) _ =>
                0 <= batchsize /\
                batchs = [mkBatch [batchsize; 1024; 64] [batchsize; 1024; 512] tt
                                  (list_times "" batchsize) [batchsize; 160000]
                                  (list_times prompt batchsize)]
            | _ => True
            end) t /\
  ((forall p n s e,
      match snd (h_ext (wav_to_fbank p n s) e) with
      | Ok (mel, _, _) => mel = [n; 64]
      | Err _ => True
      end) ->
   called is_sampling_entry t = true ->
   exists d, duration' = Some d /\
             (target_length d = Ok 1024 \/ target_length d = Ok 1)).
Proof.
  cbv zeta. split.
  - unfold super_resolution_and_inpainting.
    repeat (run_cbn; run_step); trace_done.
    all: match goal with
         | H : snd (make_batch_for_text_to_audio _ _ _ _) = Ok _ |- _ =>
             apply fbank_batch in H as (Hb & _ & ->); auto
         end.
  - intros Hmel. unfold super_resolution_and_inpainting.
    repeat (run_cbn; run_step); run_cbn;
      cbn [called existsb orb is_sampling_entry]; intros Hc;
      try discriminate Hc.
    all: destruct duration' as [d|]; [|discriminate];
      exists d; split; [reflexivity|];
      cbn [mul_float] in *;
      match goal with
      | Hw : h_ext (wav_to_fbank ?p ?n ?s) ?e = _ |- _ =>
          let M := fresh "M" in
          pose proof (Hmel p n s e) as M; rewrite Hw in M; cbn [snd] in M;
          rewrite M in *
      end;
      match goal with
      | H : snd (make_batch_for_text_to_audio _ _ _ _) = Ok _ |- _ =>
          apply fbank_batch in H as (_ & H & _);
          apply mel_frames in H as [[H | H] _]; rewrite H in *
      end; [left|right]; target_done.
Qed.

End Runs.

(** ** The latent time size *)

(** The float literals are the doubles nearest to the decimals of the
    source: [m * 2^e] is within half a unit of the last place. *)
Lemma literals_nearest :
  2 * Z.abs (10 * 7205759403792794 - 256 * 2 ^ 48) <= 10 /\
  Py.f25_6 = binary_normalize Py.prec Py.emax 7205759403792794 (-48) false /\
  2 * Z.abs (10 * 7205759403792794 - 1024 * 2 ^ 46) <= 10 /\
  Py.f102_4 = binary_normalize Py.prec Py.emax 7205759403792794 (-46) false /\
  Py.f1_0 = binary_normalize Py.prec Py.emax 1 0 false /\
  Py.f10_0 = binary_normalize Py.prec Py.emax 10 0 false /\
  Py.f0_5 = binary_normalize Py.prec Py.emax 1 (-1) false /\
  Py.f10_004 = binary_normalize Py.prec Py.emax 2561 (-8) false.
Proof. repeat split; vm_compute; congruence. Qed.

(** C7, as the code has it.  For every duration that is not negative,
    [duration_to_latent_t_size(d)] is [floor(d * 25.6)], the product being
    the double-precision one; a duration of 10 gives 256.  (For a negative
    duration the code rounds toward zero, not down.) *)
Theorem duration_to_latent_t_size_floor (d : Py.num) :
  Py.nonneg d = true ->
  duration_to_latent_t_size d = floor_of_scaled_duration d /\
  duration_to_latent_t_size (Py.Int 10) = Ok 256 /\
  duration_to_latent_t_size (Py.Float Py.f10_0) = Ok 256.
Proof.
  intros Hd. split; [|split; reflexivity].
  apply int_mul_floor; [assumption|reflexivity].
Qed.

Lemma duration_to_latent_t_size_floor_witness :
  Py.nonneg (Py.Float Py.f0_5) = true /\
  duration_to_latent_t_size (Py.Float Py.f0_5) = Ok 12 /\
  floor_of_scaled_duration (Py.Float Py.f0_5) = Ok 12.
Proof.
  split; [reflexivity|].
  destruct (duration_to_latent_t_size_floor (Py.Float Py.f0_5) eq_refl)
    as [H _].
  split; [reflexivity|]. rewrite <- H. reflexivity.
Defined.

(** C7 as stated fails on a negative duration: [int(-1 * 25.6)] is [-25],
    the floor of [-25.6] is [-26]. *)
Lemma duration_to_latent_t_size_negative :
  duration_to_latent_t_size (Py.Int (-1)) = Ok (-25) /\
  floor_of_scaled_duration (Py.Int (-1)) = Ok (-26) /\
  duration_to_latent_t_size (Py.Int (-1))
  <> floor_of_scaled_duration (Py.Int (-1)).
Proof. repeat split. discriminate. Qed.

(** For whole seconds up to an hour the double-precision product does not
    disturb the result: it is the floor of the exact [d * 25.6]. *)
Lemma duration_to_latent_t_size_seconds (d : Z) :
  0 <= d <= 3600 -> duration_to_latent_t_size (Py.Int d) = Ok (d * 128 / 5).
Proof.
  intros Hd.
  assert (Hall : forallb (fun n => match duration_to_latent_t_size (Py.Int (Z.of_nat n)) with
                                   | Ok v => v =? Z.of_nat n * 128 / 5
                                   | Err _ => false
                                   end) (seq 0 3601) = true)
    by (vm_compute; reflexivity).
  rewrite forallb_forall in Hall.
  specialize (Hall (Z.to_nat d)). rewrite Z2Nat.id in Hall by lia.
  destruct (duration_to_latent_t_size (Py.Int d)) as [v|].
  - f_equal. apply Z.eqb_eq, Hall, in_seq. lia.
  - discriminate Hall. apply in_seq. lia.
Qed.

(** *** Sign and scale of the two sizes *)

(** Rounding does not look at the sign. *)
Lemma binary_round_aux_opp (s : bool) (m e : Z) (l : location) :
  binary_round_aux Py.prec Py.emax (negb s) m e l
  = SFopp (binary_round_aux Py.prec Py.emax s m e l).
Proof.
  unfold binary_round_aux.
  destruct (shr_fexp Py.prec Py.emax m e l) as [mrs e'].
  destruct (shr_fexp Py.prec Py.emax _ e' loc_Exact) as [mrs' e''].
  destruct (shr_m mrs'); try reflexivity.
  destruct (e'' <=? Py.emax - Py.prec); reflexivity.
Qed.

Lemma float_of_int_opp (z : Z) :
  z <> 0 -> Py.float_of_int (- z) = rmap SFopp (Py.float_of_int z).
Proof.
  intros Hz. unfold Py.float_of_int, binary_normalize.
  destruct z as [|p|p]; [contradiction| |]; cbn [Z.opp]; unfold binary_round;
    destruct (shl_align p 0 _) as [mz ez].
  - rewrite (binary_round_aux_opp false).
    now destruct (binary_round_aux _ _ false _ _ _).
  - rewrite (binary_round_aux_opp false).
    destruct (binary_round_aux _ _ false _ _ _) as [[]|[]| |[] m e]; reflexivity.
Qed.

Lemma SFmul_opp_l (x y : spec_float) :
  SFmul Py.prec Py.emax (SFopp x) y = SFopp (SFmul Py.prec Py.emax x y).
Proof.
  destruct x as [sx|sx| |sx mx ex], y as [sy|sy| |sy my ey]; cbn [SFopp SFmul];
    rewrite <- ?negb_xorb_l; try reflexivity.
  apply binary_round_aux_opp.
Qed.

Lemma scaled_quot_opp (m e : Z) : Py.scaled_quot (- m) e = - Py.scaled_quot m e.
Proof.
  unfold Py.scaled_quot. destruct (Z.leb_spec 0 e); [apply Z.mul_opp_l|].
  apply Z.quot_opp_l. apply Z.pow_nonzero; lia.
Qed.

Lemma int_opp (f : spec_float) :
  Py.int (Py.Float (SFopp f)) = rmap Z.opp (Py.int (Py.Float f)).
Proof.
  destruct f as [s|s| |s m e]; cbn [SFopp Py.int rmap]; try reflexivity.
  f_equal. rewrite <- scaled_quot_opp. now destruct s.
Qed.

Lemma int_mul_opp (d : Py.num) (c : spec_float) :
  rbind (Py.mul (py_neg d) (Py.Float c)) Py.int
  = rmap Z.opp (rbind (Py.mul d (Py.Float c)) Py.int).
Proof.
  destruct d as [z|f]; cbn [py_neg Py.mul Py.to_float rbind].
  - destruct (Z.eq_dec z 0) as [->|Hz].
    + cbn. destruct c as [s|s| |s m e]; reflexivity.
    + rewrite float_of_int_opp by assumption.
      destruct (Py.float_of_int z) as [fz|]; cbn [rmap rbind]; [|reflexivity].
      rewrite SFmul_opp_l. apply int_opp.
  - rewrite SFmul_opp_l. apply int_opp.
Qed.

(** X14.  [int] rounds toward zero, so the latent time size and the
    number of mel frames are odd functions of the duration: negating the
    duration negates the result, and the same exception is raised where
    one is. *)
Theorem duration_to_latent_t_size_odd (d : Py.num) :
  duration_to_latent_t_size (py_neg d) = rmap Z.opp (duration_to_latent_t_size d) /\
  target_length (py_neg d) = rmap Z.opp (target_length d).
Proof. split; apply int_mul_opp. Qed.

(** *** The two scale constants differ by a factor of four *)

Lemma Zdigits2_nonneg (z : Z) : 0 <= Zdigits2 z.
Proof. destruct z; simpl; lia. Qed.

Lemma shr_fexp_exp_ge (m e : Z) (l : location) :
  e <= snd (shr_fexp Py.prec Py.emax m e l).
Proof.
  unfold shr_fexp, shr.
  destruct (fexp Py.prec Py.emax (Zdigits2 m + e) - e); cbn [snd]; lia.
Qed.

Lemma binary_round_aux_exp_ge (s s' : bool) (m e e' : Z) (m' : positive) (l : location) :
  binary_round_aux Py.prec Py.emax s m e l = S754_finite s' m' e' -> e <= e'.
Proof.
  unfold binary_round_aux.
  pose proof (shr_fexp_exp_ge m e l) as H1.
  destruct (shr_fexp Py.prec Py.emax m e l) as [mrs e1].
  pose proof (shr_fexp_exp_ge
                (round_nearest_even (shr_m mrs) (loc_of_shr_record mrs))
                e1 loc_Exact) as H2.
  destruct (shr_fexp Py.prec Py.emax _ e1 loc_Exact) as [mrs2 e2].
  cbn [snd] in *.
  destruct (shr_m mrs2); try discriminate.
  destruct (e2 <=? Py.emax - Py.prec); [|discriminate].
  intros H. injection H as _ _ <-. lia.
Qed.

Lemma binary_round_exponent (sx s : bool) (p m : positive) (e : Z) :
  binary_round Py.prec Py.emax sx p 0 = S754_finite s m e -> -52 <= e.
Proof.
  unfold binary_round, shl_align.
  assert (Hf : -52 <= fexp Py.prec Py.emax (Z.pos (digits2_pos p) + 0))
    by (unfold fexp, emin, Py.prec, Py.emax; lia).
  destruct (fexp Py.prec Py.emax (Z.pos (digits2_pos p) + 0) - 0) eqn:Hd;
    intros H; apply binary_round_aux_exp_ge in H; lia.
Qed.

Lemma float_of_int_exponent (z : Z) (s : bool) (m : positive) (e : Z) :
  Py.float_of_int z = Ok (S754_finite s m e) -> -52 <= e.
Proof.
  unfold Py.float_of_int, binary_normalize.
  destruct z as [|p|p]; [discriminate| |];
    destruct (binary_round _ _ _ p 0) as [| | |s' m' e'] eqn:Hb;
    try discriminate; intros H; injection H as -> -> ->;
    eapply binary_round_exponent; eauto.
Qed.

Lemma shr_fexp_shift (m e : Z) (l : location) :
  -1021 <= Zdigits2 m + e ->
  shr_fexp Py.prec Py.emax m (e + 2) l
  = (fst (shr_fexp Py.prec Py.emax m e l),
     snd (shr_fexp Py.prec Py.emax m e l) + 2).
Proof.
  intros H. unfold shr_fexp. rewrite !fexp_normal by lia.
  replace (Zdigits2 m + (e + 2) - 53 - (e + 2)) with (Zdigits2 m - 53) by lia.
  replace (Zdigits2 m + e - 53 - e) with (Zdigits2 m - 53) by lia.
  unfold shr. destruct (Zdigits2 m - 53); cbn [fst snd]; f_equal; lia.
Qed.

Lemma shr_fexp_rounded_exponent (m e : Z) :
  -968 <= Zdigits2 m + e ->
  let '(mrs, e') := shr_fexp Py.prec Py.emax m e loc_Exact in
  -1021 <= Zdigits2 (round_nearest_even (shr_m mrs) (loc_of_shr_record mrs)) + e'.
Proof.
  intros H. unfold shr_fexp. rewrite fexp_normal by lia.
  replace (Zdigits2 m + e - 53 - e) with (Zdigits2 m - 53) by lia.
  unfold shr. destruct (Zdigits2 m - 53) as [|p|p] eqn:Hn.
  - cbn. lia.
  - match goal with
    | |- _ <= Zdigits2 ?x + _ => pose proof (Zdigits2_nonneg x)
    end. lia.
  - cbn. lia.
Qed.

(** Away from the subnormal range, rounding [m * 2^(e+2)] gives the
    mantissa of rounding [m * 2^e], with an exponent two higher. *)
Lemma binary_round_aux_shift (s : bool) (m e : Z) :
  -968 <= Zdigits2 m + e ->
  match binary_round_aux Py.prec Py.emax s m (e + 2) loc_Exact with
  | S754_infinity _ => True
  | S754_finite s' m' e' =>
      binary_round_aux Py.prec Py.emax s m e loc_Exact = S754_finite s' m' (e' - 2)
  | f => binary_round_aux Py.prec Py.emax s m e loc_Exact = f
  end.
Proof.
  intros H. unfold binary_round_aux.
  rewrite shr_fexp_shift by lia.
  pose proof (shr_fexp_rounded_exponent m e H) as H1.
  destruct (shr_fexp Py.prec Py.emax m e loc_Exact) as [mrs e1]. cbn [fst snd].
  rewrite shr_fexp_shift by lia.
  destruct (shr_fexp Py.prec Py.emax _ e1 loc_Exact) as [mrs2 e2]. cbn [fst snd].
  destruct (shr_m mrs2); try reflexivity.
  destruct (Z.leb_spec (e2 + 2) (Py.emax - Py.prec)); [|exact I].
  destruct (Z.leb_spec e2 (Py.emax - Py.prec)); [|lia]. f_equal. lia.
Qed.

Lemma scaled_quot_quarter (m e : Z) :
  Z.quot (Py.scaled_quot m e) 4 = Py.scaled_quot m (e - 2).
Proof.
  unfold Py.scaled_quot.
  destruct (Z.leb_spec 0 e), (Z.leb_spec 0 (e - 2)); try lia.
  - replace e with (e - 2 + 2) at 1 by lia.
    rewrite Z.pow_add_r by lia. change (2 ^ 2) with 4.
    rewrite Z.mul_assoc. apply Z.quot_mul. lia.
  - assert (He : e = 0 \/ e = 1) by lia.
    destruct He as [-> | ->]; cbn [Z.sub Z.opp Z.add Z.pos_sub Z.succ_double Z.pred_double Z.double].
    + now rewrite Z.mul_1_r.
    + change 4 with (2 * 2). change (2 ^ 1) with 2. change (2 ^ (- -1)) with 2.
      apply Z.quot_mul_cancel_r; lia.
  - rewrite Z.quot_quot by (try apply Z.pow_nonzero; lia).
    f_equal. replace (- (e - 2)) with (- e + 2) by lia.
    rewrite Z.pow_add_r by lia. reflexivity.
Qed.

Lemma mul_finite_quarter (s : bool) (m : positive) (e T : Z) :
  -900 <= e ->
  Py.int (Py.Float (SFmul Py.prec Py.emax (S754_finite s m e) Py.f102_4)) = Ok T ->
  Py.int (Py.Float (SFmul Py.prec Py.emax (S754_finite s m e) Py.f25_6))
  = Ok (Z.quot T 4).
Proof.
  intros He. unfold Py.f102_4, Py.f25_6. cbn [SFmul].
  replace (e + -46) with (e + -48 + 2) by lia.
  pose proof (binary_round_aux_shift (xorb s false)
                (Z.pos (m * 7205759403792794)) (e + -48)) as H.
  cbn [Zdigits2] in H.
  destruct (binary_round_aux Py.prec Py.emax (xorb s false)
              (Z.pos (m * 7205759403792794)) (e + -48 + 2) loc_Exact)
    as [s'|s'| |s' m' e']; cbn [Py.int]; try discriminate;
    (rewrite H by lia); cbn [Py.int]; intros E; injection E as <-.
  - reflexivity.
  - now rewrite scaled_quot_quarter.
Qed.

(** X15.  The latent time size is a quarter of the number of mel frames,
    rounded toward zero: whenever [int(duration * 102.4)] is [T],
    [duration_to_latent_t_size(duration)] is the quotient of [T] by four.
    This holds for every int and for every float whose exponent is at
    least -900. *)
Theorem latent_t_size_quarter_of_target_length (d : Py.num) (T : Z) :
  above_subnormal d -> target_length d = Ok T ->
  duration_to_latent_t_size d = Ok (Z.quot T 4).
Proof.
  unfold above_subnormal, target_length, duration_to_latent_t_size.
  destruct d as [z|f]; cbn [Py.mul Py.to_float rbind]; intros Hd.
  - destruct (Py.float_of_int z) as [[sz|sz| |sz mz ez]|] eqn:Hz;
      cbn [rbind]; try discriminate.
    + cbn. intros H. now injection H as <-.
    + apply mul_finite_quarter. apply float_of_int_exponent in Hz. lia.
  - destruct f as [sz|sz| |sz mz ez]; try discriminate.
    + cbn. intros H. now injection H as <-.
    + now apply mul_finite_quarter.
Qed.

Lemma latent_t_size_quarter_of_target_length_witness :
  above_subnormal (Py.Float Py.f0_5) /\
  target_length (Py.Float Py.f0_5) = Ok 51 /\
  duration_to_latent_t_size (Py.Float Py.f0_5) = Ok 12.
Proof.
  assert (Ha : above_subnormal (Py.Float Py.f0_5)) by (simpl; lia).
  split; [exact Ha|]. split; [reflexivity|].
  exact (latent_t_size_quarter_of_target_length (Py.Float Py.f0_5) 51 Ha eq_refl).
Defined.

(** X16.  For whole seconds up to an hour the double-precision products
    do not disturb the two sizes: they are the floors of the exact
    [d * 25.6] and [d * 102.4]. *)
Theorem whole_seconds_sizes (d : Z) :
  0 <= d <= 3600 ->
  duration_to_latent_t_size (Py.Int d) = Ok (d * 128 / 5) /\
  target_length (Py.Int d) = Ok (d * 512 / 5).
Proof.
  intros Hd.
  assert (Hall : forallb (fun n =>
                            match duration_to_latent_t_size (Py.Int (Z.of_nat n)),
                                  target_length (Py.Int (Z.of_nat n)) with
                            | Ok v, Ok v' =>
                                (v =? Z.of_nat n * 128 / 5) && (v' =? Z.of_nat n * 512 / 5)
                            | _, _ => false
                            end) (seq 0 3601) = true)
    by (vm_compute; reflexivity).
  rewrite forallb_forall in Hall.
  specialize (Hall (Z.to_nat d)). rewrite Z2Nat.id in Hall by lia.
  assert (Hin : In (Z.to_nat d) (seq 0 3601)) by (apply in_seq; lia).
  specialize (Hall Hin).
  destruct (duration_to_latent_t_size (Py.Int d)) as [v|]; [|discriminate].
  destruct (target_length (Py.Int d)) as [v'|]; [|discriminate].
  apply andb_prop in Hall as [H1 H2].
  apply Z.eqb_eq in H1, H2. now subst.
Qed.

Lemma whole_seconds_sizes_witness :
  0 <= 10 <= 3600 /\
  duration_to_latent_t_size (Py.Int 10) = Ok 256 /\
  target_length (Py.Int 10) = Ok 1024.
Proof.
  assert (H : 0 <= 10 <= 3600) by lia.
  split; [exact H|]. exact (whole_seconds_sizes 10 H).
Defined.

(** ** Building the model *)

Section BuildModel.

Context {Obj Rest CsmRest Env : Type}.

Lemma dict_get_set_same (key : string) (v : Build.pyval Obj) (d : Build.dict Obj) :
  Build.dict_get key (Build.dict_set key v d) = Some v.
Proof.
  induction d as [|[k x] d IH]; cbn [Build.dict_set Build.dict_get].
  - now rewrite String.eqb_refl.
  - destruct (String.eqb k key) eqn:E; cbn [Build.dict_get]; now rewrite E.
Qed.

Lemma dict_get_set_other (key key' : string) (v : Build.pyval Obj)
      (d : Build.dict Obj) :
  key' <> key ->
  Build.dict_get key' (Build.dict_set key v d) = Build.dict_get key' d.
Proof.
  intros Hk.
  induction d as [|[k x] d IH]; cbn [Build.dict_set Build.dict_get].
  - destruct (String.eqb_spec key key'); [congruence|reflexivity].
  - destruct (String.eqb_spec k key) as [->|]; cbn [Build.dict_get].
    + destruct (String.eqb_spec key key'); [congruence|reflexivity].
    + destruct (String.eqb k key'); [reflexivity|exact IH].
Qed.

Lemma dict_set_length (key : string) (v : Build.pyval Obj) (d : Build.dict Obj) :
  (List.length d <= List.length (Build.dict_set key v d) <= S (List.length d))%nat.
Proof.
  induction d as [|[k x] d IH]; cbn [Build.dict_set List.length]; [lia|].
  destruct (String.eqb k key); cbn [List.length]; lia.
Qed.

(** Written through [config], the two assignments land in the parameter
    dictionary, which is what the constructor is then given. *)
Lemma model_kwargs_value (config : Build.pyval Obj) (d : Build.device) :
  Build.model_kwargs config d
  = match rbind (Build.getitem config "model")
                (fun m => Build.getitem m "params") with
    | Ok (Build.PDict p) =>
        Ok (Build.dict_set "cond_stage_key" (Build.PStr "text")
              (Build.dict_set "device" (Build.PDevice d) p))
    | Ok _ => Err (TypeError "object does not support item assignment")
    | Err e => Err e
    end.
Proof.
  unfold Build.model_kwargs, Build.set_param.
  destruct config as [s|x|items|o]; try reflexivity.
  cbn [Build.getitem].
  destruct (Build.dict_get "model" items) as [m|]; [|reflexivity].
  cbn [rbind].
  destruct m as [s|x|mitems|o]; try reflexivity.
  cbn [Build.getitem].
  destruct (Build.dict_get "params" mitems) as [p|]; [|reflexivity].
  cbn [rbind].
  destruct p as [s|x|p|o]; try reflexivity.
  cbn [Build.setitem rbind Build.getitem].
  repeat (rewrite dict_get_set_same; cbn [Build.setitem rbind Build.getitem]).
  reflexivity.
Qed.

Lemma model_kwargs_ok (config : Build.pyval Obj) (d : Build.device)
      (kwargs : Build.dict Obj) :
  Build.model_kwargs config d = Ok kwargs ->
  Build.dict_get "device" kwargs = Some (Build.PDevice d) /\
  Build.dict_get "cond_stage_key" kwargs = Some (Build.PStr "text").
Proof.
  rewrite model_kwargs_value.
  destruct (rbind _ _) as [[s|x|p|o]|e]; try discriminate.
  intros H. injection H as <-. split.
  - rewrite dict_get_set_other by discriminate. apply dict_get_set_same.
  - apply dict_get_set_same.
Qed.

(** X17.  The keyword arguments of the model's constructor.  When
    [config["model"]["params"]] is a dictionary, the constructor is given
    that dictionary with ["device"] set to the device and
    ["cond_stage_key"] set to ["text"], whatever the configuration said
    for these two, and with every other parameter as configured; at most
    two entries are added.  When it is something else the assignment
    raises a type error, and when a lookup fails its exception comes
    through. *)
Theorem build_model_overrides (config : Build.pyval Obj) (d : Build.device) :
  match rbind (Build.getitem config "model")
              (fun m => Build.getitem m "params") with
  | Ok (Build.PDict p) =>
      exists kwargs,
        Build.model_kwargs config d = Ok kwargs /\
        Build.dict_get "device" kwargs = Some (Build.PDevice d) /\
        Build.dict_get "cond_stage_key" kwargs = Some (Build.PStr "text") /\
        (forall key, key <> "device" -> key <> "cond_stage_key" ->
                     Build.dict_get key kwargs = Build.dict_get key p) /\
        (List.length p <= List.length kwargs <= List.length p + 2)%nat
  | Ok _ =>
      Build.model_kwargs config d
      = Err (TypeError "object does not support item assignment")
  | Err e => Build.model_kwargs config d = Err e
  end.
Proof.
  rewrite model_kwargs_value.
  destruct (rbind _ _) as [[s|x|p|o]|e]; try reflexivity.
  eexists. split; [reflexivity|]. split; [|split; [|split]].
  - rewrite dict_get_set_other by discriminate. apply dict_get_set_same.
  - apply dict_get_set_same.
  - intros key H1 H2. now rewrite !dict_get_set_other.
  - pose proof (dict_set_length "device" (Build.PDevice d) p).
    pose proof (dict_set_length "cond_stage_key" (Build.PStr "text")
                  (Build.dict_set "device" (Build.PDevice d) p)).
    lia.
Qed.

Variable h : forall c : Build.call Obj Rest CsmRest,
    Env -> Env * result (Build.ret_type c).

Ltac build_cbn :=
  unfold Build.bind, Build.invoke, Build.lift, Build.pure;
  cbn [Build.env_after Build.calls Build.outcome app map Build.name snd fst].

Ltac build_step :=
  match goal with
  | |- context [h ?c ?e] => destruct (h c e) as [? [?|?]] eqn:?
  | |- context [Build.model_kwargs ?c ?d] =>
      destruct (Build.model_kwargs c d) eqn:?
  end.

(** X18.  The calls of [build_model].  In every run they are a beginning
    of: the CUDA probe, the loading of the configuration, the constructor,
    [torch.load], the lookup of ["state_dict"], [load_state_dict], [eval]
    and [to], and in a run that returns they are all of them; a [config]
    that is neither [None] nor a string stops the run after the CUDA
    probe.  The device is ["cuda:0"] when CUDA is available and ["cpu"]
    otherwise, and the same device goes to the constructor, to
    [torch.load] as [map_location] and to [to]; the checkpoint is read
    from [ckpt_path].  The model that is returned has the embed mode
    ["text"]. *)
Theorem build_model_calls (ckpt_path : string) (config : option config_arg)
        (e : Env) :
  let r := Build.build_model h ckpt_path config e in
  (exists rest,
     Build.plan config = map (@Build.name Obj Rest CsmRest) (Build.calls r) ++ rest /\
     (forall m, Build.outcome r = Ok m -> rest = [])) /\
  match snd (h Build.cuda_is_available e) with
  | Ok cuda =>
      let device := if cuda then Build.cuda0 else Build.cpu in
      Forall (fun c =>
                match c with
                | Build.open_file path => config = Some (ConfigStr path)
                | Build.LatentDiffusion_init kwargs =>
                    Build.dict_get "device" kwargs = Some (Build.PDevice device) /\
                    Build.dict_get "cond_stage_key" kwargs
                    = Some (Build.PStr "text")
                | Build.torch_load f map_location =>
                    f = ckpt_path /\ map_location = device
                | Build.checkpoint_getitem _ key => key = "state_dict"
                | Build.to _ d => d = device
                | _ => True
                end) (Build.calls r)
  | Err x => Build.outcome r = Err x
  end /\
  (forall m, Build.outcome r = Ok m -> embed_mode (cond_stage_model m) = "text").
Proof.
  cbv zeta. unfold Build.build_model, Build.plan.
  destruct config as [[path|]|];
    repeat (build_cbn; build_step); build_cbn;
    (split; [eexists; split; [reflexivity|intros; try discriminate; reflexivity]
            |split; [|intros m E; try discriminate E; now injection E as <-]]);
    repeat (apply Forall_cons || apply Forall_nil); auto;
    try (eapply model_kwargs_ok; eassumption).
Qed.

(** X19.  When the constructor keeps the conditioning key it is given
    and [load_state_dict], [eval] and [to] leave it alone, the model that
    [build_model] returns is in text mode, so that [set_cond_text] does
    not change it. *)
Theorem build_model_text_mode (ckpt_path : string) (config : option config_arg)
        (e : Env) (m : LatentDiffusion Rest CsmRest) :
  (forall kwargs e' m' key,
     snd (h (Build.LatentDiffusion_init kwargs) e') = Ok m' ->
     Build.dict_get "cond_stage_key" kwargs = Some (Build.PStr key) ->
     cond_stage_key m' = key) ->
  (forall self x e' m',
     snd (h (Build.load_state_dict self x) e') = Ok m' ->
     cond_stage_key m' = cond_stage_key self) ->
  (forall self e' m',
     snd (h (Build.eval_ self) e') = Ok m' ->
     cond_stage_key m' = cond_stage_key self) ->
  (forall self d e' m',
     snd (h (Build.to self d) e') = Ok m' ->
     cond_stage_key m' = cond_stage_key self) ->
  Build.outcome (Build.build_model h ckpt_path config e) = Ok m ->
  cond_mode m = text_mode /\ set_cond_text m = m.
Proof.
  intros Hinit Hload Heval Hto.
  assert (Hgoal : Build.outcome (Build.build_model h ckpt_path config e) = Ok m ->
                  cond_mode m = text_mode).
  { unfold Build.build_model.
    destruct config as [[path|]|];
      repeat (build_cbn; build_step); build_cbn;
      intros E; try discriminate E; injection E as <-;
      repeat match goal with
             | H : h (Build.LatentDiffusion_init ?k) ?x = _,
               H' : Build.model_kwargs _ _ = Ok ?k |- _ =>
                 pose proof (Hinit k x) as Hi; rewrite H in Hi;
                 apply model_kwargs_ok in H' as [_ H'];
                 specialize (Hi _ _ eq_refl H'); clear H
             | H : h (Build.load_state_dict ?s ?k) ?x = _ |- _ =>
                 pose proof (Hload s k x) as Hl; rewrite H in Hl;
                 specialize (Hl _ eq_refl); clear H
             | H : h (Build.eval_ ?s) ?x = _ |- _ =>
                 pose proof (Heval s x) as He; rewrite H in He;
                 specialize (He _ eq_refl); clear H
             | H : h (Build.to ?s ?d) ?x = _ |- _ =>
                 pose proof (Hto s d x) as Ht; rewrite H in Ht;
                 specialize (Ht _ eq_refl); clear H
             end;
      unfold cond_mode, text_mode; cbn; f_equal; congruence. }
  intros E. specialize (Hgoal E). split; [exact Hgoal|].
  destruct m as [k [em r] n rest]. unfold cond_mode, text_mode in Hgoal.
  cbn in Hgoal. injection Hgoal as -> ->. reflexivity.
Qed.

End BuildModel.

Lemma build_model_text_mode_witness :
  let r := Build.build_model Build.stub "audioldm-s-full.ckpt" None [] in
  Build.outcome r = Ok (mkLd "text" (mkCsm "text" tt) 256 tt) /\
  cond_mode (mkLd "text" (mkCsm "text" tt) 256 tt) = text_mode /\
  Build.env_after r = ["audioldm-s-full.ckpt"].
Proof.
  cbv zeta. split; [reflexivity|]. split; [|reflexivity].
  refine (proj1 (build_model_text_mode Build.stub "audioldm-s-full.ckpt" None []
                   (mkLd "text" (mkCsm "text" tt) 256 tt) _ _ _ _ eq_refl)).
  - intros kwargs e' m' key H K. cbn in H. injection H as <-. cbn.
    now rewrite K.
  - intros self x e' m' H. cbn in H. now injection H as <-.
  - intros self e' m' H. cbn in H. now injection H as <-.
  - intros self d e' m' H. cbn in H. now injection H as <-.
Defined.

(** ** Closed runs against the stand-in collaborators *)

Lemma stub_preserves {B} (f : Stub.LD -> B) : preserves Stub.h_meth f.
Proof. intros c m e. destruct c; reflexivity. Qed.

(** The three entry points run to the end against the stand-ins: with an
    audio path [text_to_audio] leaves the model in audio mode, the two
    others in text mode; [super_resolution_and_inpainting] leaves the
    latent time size it found. *)
Example text_to_audio_run :
  let o := Stub.exec Stub.text_model
             (text_to_audio "a dog" (Some "x.wav") (Py.Int 42) 200 (Py.Int 10)
                            2 (Py.Float Py.f1_0) 3 None) in
  value o = Ok "waveform" /\
  cond_mode (model (final o)) = audio_mode /\
  latent_t_size (model (final o)) = 256 /\
  env (final o) = [42].
Proof. repeat split. Qed.

Example style_transfer_run :
  let o := Stub.exec Stub.audio_model
             (style_transfer "a dog" (Some "x.wav") (Py.Float Py.f0_5)
                             (Py.Int 42) (Py.Int 10) 2 (Py.Float Py.f1_0)
                             200 None) in
  value o = Ok "waveform" /\
  cond_mode (model (final o)) = text_mode /\
  latent_t_size (model (final o)) = 256.
Proof. repeat split. Qed.

Example super_resolution_and_inpainting_run :
  let o := Stub.exec Stub.audio_model
             (super_resolution_and_inpainting
                "a dog" (Some "x.wav") (Py.Int 42) 200 (Some (Py.Int 10)) 2
                (Py.Float Py.f1_0) 3
                (Py.Float Py.f0_0, Py.Float Py.f0_5)
                (Py.Float Py.f1_0, Py.Float Py.f1_0) None) in
  value o = Ok "waveform" /\
  cond_mode (model (final o)) = text_mode /\
  latent_t_size (model (final o)) = 128.
Proof. repeat split. Qed.

(** Without a duration, its default, [super_resolution_and_inpainting]
    stops at [duration * 102.4], before any call on the model. *)
Example super_resolution_and_inpainting_no_duration :
  let o := Stub.exec Stub.audio_model
             (super_resolution_and_inpainting
                "a dog" (Some "x.wav") (Py.Int 42) 200 None 2
                (Py.Float Py.f1_0) 3
                (Py.Float Py.f0_0, Py.Float Py.f0_5)
                (Py.Float Py.f1_0, Py.Float Py.f1_0) None) in
  value o
  = Err (TypeError "unsupported operand type(s) for *: 'NoneType' and 'float'") /\
  model (final o) = Stub.audio_model.
Proof. repeat split. Qed.

Lemma conditioning_mode_at_sampling_witness :
  preserves Stub.h_meth (@cond_mode unit unit) /\
  samples_in_mode text_mode
    (trace (Stub.exec Stub.audio_model
              (style_transfer "a dog" (Some "x.wav") (Py.Float Py.f0_5)
                              (Py.Int 42) (Py.Int 10) 2 (Py.Float Py.f1_0)
                              200 None))).
Proof.
  split; [apply stub_preserves|].
  apply (conditioning_mode_at_sampling Stub.h_ext Stub.h_meth
           "a dog" (Some "x.wav") (Py.Int 42) 200 (Py.Int 10) 2
           (Py.Float Py.f1_0) 3 None (Py.Float Py.f0_5) None
           (Py.Int 0, Py.Int 0) (Py.Int 0, Py.Int 0)
           (mkWorld Stub.audio_model [])).
  apply stub_preserves.
Defined.

Ltac forall_inv H :=
  repeat match type of H with
         | Forall _ (_ :: _) =>
             let H1 := fresh in
             pose proof (Forall_inv H) as H1;
             apply Forall_inv_tail in H;
             try (cbn in H1; specialize (H1 eq_refl); discriminate H1);
             clear H1
         end.

(** C1 as stated fails for [style_transfer] and for
    [super_resolution_and_inpainting]: an audio path is supplied, and the
    model, which came in audio mode, is in text mode when the sampler is
    called. *)
Lemma sampling_in_text_mode_with_audio_path :
  ~ samples_in_mode audio_mode
      (trace (Stub.exec Stub.audio_model
                (style_transfer "a dog" (Some "x.wav") (Py.Float Py.f0_5)
                                (Py.Int 42) (Py.Int 10) 2 (Py.Float Py.f1_0)
                                200 None))) /\
  ~ samples_in_mode audio_mode
      (trace (Stub.exec Stub.audio_model
                (super_resolution_and_inpainting
                   "a dog" (Some "x.wav") (Py.Int 42) 200 (Some (Py.Int 10)) 2
                   (Py.Float Py.f1_0) 3
                   (Py.Float Py.f0_0, Py.Float Py.f0_5)
                   (Py.Float Py.f1_0, Py.Float Py.f1_0) None))).
Proof.
  split; intros H; unfold samples_in_mode in H;
    match type of H with
    | Forall _ ?t => let t' := eval vm_compute in t in
                     change (Forall (fun ev =>
                               match ev with
                               | EvMeth c self =>
                                   sampling_call c = true ->
                                   cond_mode self = audio_mode
                               | _ => True
                               end) t') in H
    end;
    forall_inv H.
Qed.

Lemma style_transfer_unconditional_conditioning_witness :
  Py.eq_one (Py.Float Py.f1_0) = true /\
  Py.eq_one (Py.Float Py.f0_5) = false /\
  called (fun c => match c with
                   | get_unconditional_condition _ => true
                   | _ => false
                   end)
         (trace (Stub.exec Stub.text_model
                   (style_transfer "a dog" (Some "x.wav") (Py.Float Py.f0_5)
                                   (Py.Int 42) (Py.Int 10) 2 (Py.Float Py.f1_0)
                                   200 None))) = false /\
  called (is_get_unconditional_condition 2)
         (trace (Stub.exec Stub.text_model
                   (style_transfer "a dog" (Some "x.wav") (Py.Float Py.f0_5)
                                   (Py.Int 42) (Py.Int 10) 2 (Py.Float Py.f0_5)
                                   200 None))) = true.
Proof.
  split; [reflexivity|]. split; [reflexivity|]. split.
  - apply (style_transfer_unconditional_conditioning Stub.h_ext Stub.h_meth
             "a dog" (Some "x.wav") (Py.Float Py.f0_5) (Py.Int 42) (Py.Int 10)
             2 (Py.Float Py.f1_0) 200 None).
    reflexivity.
  - apply (style_transfer_unconditional_conditioning Stub.h_ext Stub.h_meth
             "a dog" (Some "x.wav") (Py.Float Py.f0_5) (Py.Int 42) (Py.Int 10)
             2 (Py.Float Py.f0_5) 200 None);
      reflexivity.
Defined.

Lemma style_transfer_start_timestep_witness :
  Py.nonneg (Py.Float Py.f0_5) = true /\ 0 <= 200 /\
  start_timesteps
    (trace (Stub.exec Stub.text_model
              (style_transfer "a dog" (Some "x.wav") (Py.Float Py.f0_5)
                              (Py.Int 42) (Py.Int 10) 2 (Py.Float Py.f1_0)
                              200 None)))
  = [[100; 100]; [100]] /\
  t_enc_of (Py.Float Py.f0_5) 200 = Ok 100 /\
  floor_of_strength_steps (Py.Float Py.f0_5) 200 = Ok 100 /\
  (200 < 2 ^ 53 -> t_enc_of (Py.Float Py.f1_0) 200 = Ok 200).
Proof.
  split; [reflexivity|]. split; [lia|]. split; [reflexivity|].
  destruct (style_transfer_start_timestep Stub.h_ext Stub.h_meth
              "a dog" (Some "x.wav") (Py.Float Py.f0_5)
              (Py.Int 42) (Py.Int 10) 2 (Py.Float Py.f1_0)
              200 None (mkWorld Stub.text_model []))
    as (H1 & _ & _ & _ & H5); [reflexivity|lia|].
  split; [reflexivity|]. split; [rewrite <- H1; reflexivity|].
  intros H. apply H5. exact H.
Defined.

(** C6 as stated fails for the floats [1.0] and [0.0] with a number of
    steps that a double does not hold: with [2^53 + 1] steps a transfer
    strength of [1.0] starts the sampler at [2^53], not at the number of
    steps, and with [2^1024] steps a transfer strength of [0.0] raises
    instead of giving [0]. *)
Lemma start_timestep_beyond_double :
  Py.nonneg (Py.Float Py.f1_0) = true /\ 0 <= 2 ^ 53 + 1 /\
  t_enc_of (Py.Float Py.f1_0) (2 ^ 53 + 1) = Ok (2 ^ 53) /\
  start_timesteps
    (trace (Stub.exec Stub.text_model
              (style_transfer "a dog" (Some "x.wav") (Py.Float Py.f1_0)
                              (Py.Int 42) (Py.Int 10) 2 (Py.Float Py.f1_0)
                              (2 ^ 53 + 1) None)))
  = [[2 ^ 53; 2 ^ 53]; [2 ^ 53]] /\
  2 ^ 53 <> 2 ^ 53 + 1 /\
  Py.nonneg (Py.Float Py.f0_0) = true /\
  t_enc_of (Py.Float Py.f0_0) (2 ^ 1024)
  = Err (OverflowError "int too large to convert to float").
Proof.
  split; [reflexivity|]. split; [vm_compute; discriminate|].
  split; [vm_compute; reflexivity|]. split; [vm_compute; reflexivity|].
  split; [vm_compute; discriminate|]. split; vm_compute; reflexivity.
Qed.


Lemma latent_t_size_assignments_witness :
  preserves Stub.h_meth (@latent_t_size unit unit) /\
  latent_t_size
    (model (final (Stub.exec Stub.text_model
                     (super_resolution_and_inpainting
                        "a dog" (Some "x.wav") (Py.Int 42) 200
                        (Some (Py.Int 5)) 2 (Py.Float Py.f1_0) 3
                        (Py.Float Py.f0_0, Py.Float Py.f0_5)
                        (Py.Float Py.f1_0, Py.Float Py.f1_0) None))))
  = 128.
Proof.
  split; [apply stub_preserves|].
  apply (latent_t_size_assignments Stub.h_ext Stub.h_meth
           "a dog" (Some "x.wav") (Py.Int 42) 200 (Py.Int 5) 2
           (Py.Float Py.f1_0) 3 None (Py.Float Py.f0_5) (Some (Py.Int 5))
           (Py.Float Py.f0_0, Py.Float Py.f0_5)
           (Py.Float Py.f1_0, Py.Float Py.f1_0)
           (mkWorld Stub.text_model [])).
  apply stub_preserves.
Defined.

(** C9 as stated fails: two durations with the same mel target length,
    1024 frames, reach [generate_sample_masked] as two different [duration]
    arguments, so the duration does not only set the target length. *)
Lemma super_resolution_forwards_duration :
  let run_with d :=
    Stub.exec Stub.text_model
      (super_resolution_and_inpainting
         "a dog" (Some "x.wav") (Py.Int 42) 200 (Some d) 2
         (Py.Float Py.f1_0) 3
         (Py.Float Py.f0_0, Py.Float Py.f0_5)
         (Py.Float Py.f1_0, Py.Float Py.f1_0) None) in
  rbind (mul_float (Some (Py.Int 10)) Py.f102_4) Py.int = Ok 1024 /\
  rbind (mul_float (Some (Py.Float Py.f10_004)) Py.f102_4) Py.int = Ok 1024 /\
  forwarded_durations (trace (run_with (Py.Int 10))) = [Some (Py.Int 10)] /\
  forwarded_durations (trace (run_with (Py.Float Py.f10_004)))
  = [Some (Py.Float Py.f10_004)] /\
  trace (run_with (Py.Int 10)) <> trace (run_with (Py.Float Py.f10_004)).
Proof.
  cbv zeta. repeat split.
  intros H. apply (f_equal (@forwarded_durations _ _ _)) in H.
  vm_compute in H. discriminate H.
Qed.

(** *** Instances of the further properties *)


Lemma set_cond_composition_witness :
  cond_mode Stub.text_model = text_mode /\
  set_cond_text (set_cond_audio Stub.text_model) = Stub.text_model.
Proof.
  assert (H : cond_mode Stub.text_model = text_mode) by reflexivity.
  split; [exact H|].
  destruct (set_cond_composition Stub.text_model 0) as (_ & _ & _ & _ & _ & _ & H1 & _).
  exact (H1 H).
Defined.

Lemma contexts_are_closed_witness :
  let t := trace (Stub.exec Stub.text_model
                    (style_transfer "a dog" (Some "x.wav") (Py.Float Py.f0_5)
                                    (Py.Int 42) (Py.Int 10) 2 (Py.Float Py.f0_5)
                                    200 None)) in
  called in_ema_scope t = true /\
  last_exits 3 t = ["ema_scope"; "autocast"; "no_grad"].
Proof.
  cbv zeta. split; [reflexivity|].
  apply (contexts_are_closed Stub.h_ext Stub.h_meth
           "a dog" (Some "x.wav") (Py.Int 42) 200 (Py.Int 10) 2
           (Py.Float Py.f0_5) 3 None (Py.Float Py.f0_5) None
           (Py.Int 0, Py.Int 0) (Py.Int 0, Py.Int 0)
           (mkWorld Stub.text_model [])).
  reflexivity.
Defined.


Lemma style_transfer_model_update_witness :
  preserves Stub.h_meth (fun m : Stub.LD => m) /\
  let o := Stub.exec Stub.audio_model
             (style_transfer "a dog" (Some "x.wav") (Py.Float Py.f0_5)
                             (Py.Int 42) (Py.Int 10) 2 (Py.Float Py.f1_0)
                             200 None) in
  called any_call (trace o) = true /\
  model (final o) = set_latent_t_size 256 (set_cond_text Stub.audio_model).
Proof.
  split; [apply stub_preserves|]. cbv zeta.
  destruct (style_transfer_model_update Stub.h_ext Stub.h_meth
              "a dog" (Some "x.wav") (Py.Float Py.f0_5) (Py.Int 42) (Py.Int 10)
              2 (Py.Float Py.f1_0) 200 3 None
              (Py.Int 0, Py.Int 0) (Py.Int 0, Py.Int 0) None
              (mkWorld Stub.audio_model []) (stub_preserves _))
    as (_ & H & _).
  split; [reflexivity|].
  destruct (H eq_refl) as (t & Ht & Hm).
  vm_compute in Ht. injection Ht as <-. exact Hm.
Defined.

Lemma config_must_be_a_path_witness :
  Py.int (Py.Int 42) = Ok 42 /\
  snd (Stub.h_ext (seed_everything 42) []) = Ok tt /\
  value (Stub.exec Stub.text_model
           (super_resolution_and_inpainting
              "a dog" (Some "x.wav") (Py.Int 42) 200 (Some (Py.Int 10)) 2
              (Py.Float Py.f1_0) 3
              (Py.Float Py.f0_0, Py.Float Py.f0_5)
              (Py.Float Py.f1_0, Py.Float Py.f1_0) (Some ConfigOther)))
  = Err (AssertionError "type(config) is str").
Proof.
  split; [reflexivity|]. split; [reflexivity|].
  destruct (config_must_be_a_path Stub.h_ext Stub.h_meth
              "a dog" (Some "x.wav") (Py.Float Py.f0_5) (Py.Int 42) (Py.Int 10)
              2 (Py.Float Py.f1_0) 200 3 (Some (Py.Int 10))
              (Py.Float Py.f0_0, Py.Float Py.f0_5)
              (Py.Float Py.f1_0, Py.Float Py.f1_0)
              (mkWorld Stub.text_model []))
    as (_ & _ & _ & _ & _ & H).
  exact (H 42 eq_refl eq_refl).
Defined.

Lemma super_resolution_batch_witness :
  (forall p n s e,
     match snd (Stub.h_ext (wav_to_fbank p n s) e) with
     | Ok (mel, _, _) => mel = [n; 64]
     | Err _ => True
     end) /\
  called is_sampling_entry
    (trace (Stub.exec Stub.text_model
              (super_resolution_and_inpainting
                 "a dog" (Some "x.wav") (Py.Int 42) 200 (Some (Py.Int 10)) 2
                 (Py.Float Py.f1_0) 3
                 (Py.Float Py.f0_0, Py.Float Py.f0_5)
                 (Py.Float Py.f1_0, Py.Float Py.f1_0) None))) = true /\
  exists d, Some (Py.Int 10) = Some d /\
            (target_length d = Ok 1024 \/ target_length d = Ok 1).
Proof.
  assert (Hmel : forall p n s e,
             match snd (Stub.h_ext (wav_to_fbank p n s) e) with
             | Ok (mel, _, _) => mel = [n; 64]
             | Err _ => True
             end) by (intros; reflexivity).
  split; [exact Hmel|]. split; [reflexivity|].
  apply (proj2 (super_resolution_batch Stub.h_ext Stub.h_meth
                  "a dog" (Some "x.wav") (Py.Int 42) 200 (Some (Py.Int 10)) 2
                  (Py.Float Py.f1_0) 3
                  (Py.Float Py.f0_0, Py.Float Py.f0_5)
                  (Py.Float Py.f1_0, Py.Float Py.f1_0) None
                  (mkWorld Stub.text_model [])) Hmel).
  reflexivity.
Defined.

Lemma build_model_calls_witness :
  let r := Build.build_model Build.stub "audioldm-s-full.ckpt"
                             (Some (ConfigStr "config.yaml")) [] in
  map (@Build.name string unit unit) (Build.calls r)
  = Build.plan (Some (ConfigStr "config.yaml")) /\
  Build.env_after r = ["audioldm-s-full.ckpt"; "config.yaml"] /\
  exists m, Build.outcome r = Ok m /\ embed_mode (cond_stage_model m) = "text".
Proof.
  cbv zeta. split; [reflexivity|]. split; [reflexivity|].
  eexists. split; [reflexivity|].
  apply (proj2 (proj2 (build_model_calls Build.stub "audioldm-s-full.ckpt"
                         (Some (ConfigStr "config.yaml")) []))).
  reflexivity.
Defined.
